(** * imd: a decoder for ImageDisk (IMD) floppy images

    Shallow embedding of [read.go] (package [imd]) and the properties of
    its decoder.

    Conventions of the embedding.
    - A Go [byte] is a [Byte.byte]; its numeric value is [Byte.to_N].
    - A Go [string] is a [String.string] (a sequence of 8-bit characters).
    - A Go [[]byte] that may be [nil] is a [slice]: [None] is [nil],
      [Some l] is an allocated slice with contents [l].
    - A Go function returning [(v, err)] returns a pair whose second
      component is an [option error]; [None] is [nil].
    - [Decode] takes an [io.Reader].  The development fixes the reader to
      the in-memory reader of the Go standard library, [bytes.Reader],
      reading a finite byte sequence; its state is the unread part of the
      sequence.
    - The functions of the Go standard library that the program calls
      ([strings.HasPrefix], [strings.SplitN], [strings.Split],
      [strconv.Atoi], [time.Parse]) are embedded after their sources in
      the Go distribution, for the arguments that the program passes. *)

From Stdlib Require Import NArith Strings.String Strings.Ascii Strings.Byte.
From stdpp Require Import base numbers list.

Local Open Scope string_scope.
Local Open Scope N_scope.
Local Open Scope list_scope.

(* ===================================================================== *)
(** ** Bytes, strings, errors *)
(* ===================================================================== *)

Abbreviation byte := Byte.byte.

#[global] Instance byte_eq_dec : EqDecision byte := Byte.byte_eq_dec.

(** A possibly-[nil] byte slice. *)
Definition slice := option (list byte).

(** The [error] values that occur: [io.EOF], the values built by
    [errors.New], the [*strconv.NumError] of [strconv.Atoi] with its cause
    ([strconv.ErrSyntax] or [strconv.ErrRange]), and the
    [*time.ParseError] of [time.Parse]. *)
Inductive error : Type :=
  | io_EOF
  | errors_New (text : string)
  | strconv_ErrSyntax
  | strconv_ErrRange
  | time_ParseError.

(** [make([]byte, n)]: [n] zero bytes. *)
Definition make (n : nat) : list byte := replicate n x00.

(** The conversion [string(b)] of a [[]byte] to a [string]. *)
Definition string_of_bytes (b : list byte) : string := string_of_list_byte b.

(** The conversion [string(c)] of a single [byte] [c] (an integer type) to
    a [string]: Go yields the UTF-8 encoding of the code point [c], which
    is the byte itself below 0x80 and two bytes from 0x80 on. *)
Definition byte_of_N (n : N) : byte :=
  match Byte.of_N n with Some b => b | None => x00 end.

Definition string_of_rune (c : byte) : string :=
  let n := Byte.to_N c in
  if n <? 128 then String (ascii_of_byte c) EmptyString
  else String (ascii_of_byte (byte_of_N (N.lor 192 (N.shiftr n 6))))
         (String (ascii_of_byte (byte_of_N (N.lor 128 (N.land n 63))))
            EmptyString).

(* ===================================================================== *)
(** ** The reader ([bytes.Reader]) *)
(* ===================================================================== *)

(** The unread portion [r.s[r.i:]] of the underlying byte sequence. *)
Definition Reader := list byte.

(** [r.Read(p)]:
<<
    if r.i >= int64(len(r.s)) { return 0, io.EOF }
    n = copy(b, r.s[r.i:]); r.i += int64(n); return
>>
    The result is the buffer after the call, the count [n], the error and
    the reader after the call.  At the end of the sequence the call fails
    with [io.EOF], also for an empty buffer; otherwise it copies what is
    there, up to [len(p)] bytes, and reports no error even when fewer than
    [len(p)] bytes were copied. *)
Definition Read (r : Reader) (p : list byte)
  : list byte * nat * option error * Reader :=
  match r with
  | [] => (p, 0%nat, Some io_EOF, r)
  | _ :: _ =>
      let n := Nat.min (length p) (length r) in
      (take n r ++ drop n p, n, None, drop n r)
  end.

(** [readBytePtr(r, dst)] reads into the one-byte slice over [*dst]; the
    first component is [*dst] after the call. *)
Definition readBytePtr (r : Reader) (dst : byte)
  : byte * option error * Reader :=
  let '(p, _, err, r) := Read r [dst] in
  (match p with b :: _ => b | [] => dst end, err, r).

(** [readByte(r)]. *)
Definition readByte (r : Reader) : byte * option error * Reader :=
  let v := x00 in
  readBytePtr r v.

(** The loop of [readStringASCIIEOF].  Every turn that does not return
    consumes one byte of the reader, so [S (length r)] turns are never
    exhausted (see [readStringASCIIEOF_loop_fuel]); the branch for no turns
    left is there for the recursion only. *)
Fixpoint readStringASCIIEOF_loop (turns : nat) (r : Reader) (str : string)
  : string * option error * Reader :=
  match turns with
  | O => (str, Some io_EOF, r)
  | S turns =>
      let byt := make 1 in
      let '(byt, _, err, r) := Read r byt in
      match err with
      | Some e => (str, Some e, r)
      | None =>
          match byt with
          | b :: _ =>
              if Byte.eqb b x1a then (str, None, r)
              else readStringASCIIEOF_loop turns r (str ++ string_of_rune b)%string
          | [] => (str, None, r)
          end
      end
  end.

(** [readStringASCIIEOF(r)]. *)
Definition readStringASCIIEOF (r : Reader) : string * option error * Reader :=
  let str := "" in
  readStringASCIIEOF_loop (S (length r)) r str.

(* ===================================================================== *)
(** ** Go strings: slicing and the functions of package [strings] *)
(* ===================================================================== *)

(** [len(s)] as a Go [int]. *)
Definition len (s : string) : Z := Z.of_nat (String.length s).

(** [s[n:]] and [s[:n]], for [n] within [0..len(s)]. *)
Fixpoint sdrop (n : nat) (s : string) : string :=
  match n, s with
  | O, _ => s
  | S n, String _ s => sdrop n s
  | S _, EmptyString => EmptyString
  end.

Fixpoint stake (n : nat) (s : string) : string :=
  match n, s with
  | O, _ => EmptyString
  | S n, String c s => String c (stake n s)
  | S _, EmptyString => EmptyString
  end.

(** [s[a:b]], for [0 <= a <= b <= len(s)]. *)
Definition sslice (a b : nat) (s : string) : string := stake (b - a) (sdrop a s).

(** [s[i] == c], for [i < len(s)]. *)
Definition char_at_is (s : string) (i : nat) (c : ascii) : bool :=
  match String.get i s with
  | Some d => Ascii.eqb d c
  | None => false
  end.

(** [strings.HasPrefix(s, prefix)]. *)
Definition HasPrefix (s prefix : string) : bool := String.prefix prefix s.

(** [strings.Index(s, sep)]: the index of the first instance of [sep] in
    [s], [None] for the -1 of Go. *)
Fixpoint Index (s sep : string) : option nat :=
  if String.prefix sep s then Some O
  else match s with
       | EmptyString => None
       | String _ s' => option_map S (Index s' sep)
       end.

(** [strings.Count(s, sep)] for a nonempty [sep]: the number of
    non-overlapping instances.  Each found instance shortens [s], so
    [length s] turns are enough (see [Count_loop_fuel]). *)
Fixpoint Count_loop (turns : nat) (s sep : string) (n : Z) : Z :=
  match turns with
  | O => n
  | S turns =>
      match Index s sep with
      | None => n
      | Some i => Count_loop turns (sdrop (i + String.length sep) s) sep (n + 1)
      end
  end.

Definition Count (s sep : string) : Z := Count_loop (String.length s) s sep 0.

(** The loop of [strings.genSplit] with [n] further separators to look
    for: [for i < n { m := Index(s, sep); if m < 0 { break }; ... }],
    followed by [a[i] = s]. *)
Fixpoint genSplit_loop (n : nat) (s sep : string) (sepSave : nat) : list string :=
  match n with
  | O => [s]
  | S n =>
      match Index s sep with
      | None => [s]
      | Some m =>
          stake (m + sepSave) s
            :: genSplit_loop n (sdrop (m + String.length sep) s) sep sepSave
      end
  end.

(** [strings.genSplit(s, sep, sepSave, n)] for a nonempty [sep] (the
    program only splits on [": "] and [" "]). *)
Definition genSplit (s sep : string) (sepSave : nat) (n : Z) : list string :=
  if (n =? 0)%Z then []
  else
    let n := if (n <? 0)%Z then (Count s sep + 1)%Z else n in
    let n := if (len s + 1 <? n)%Z then (len s + 1)%Z else n in
    genSplit_loop (Z.to_nat (n - 1)) s sep sepSave.

Definition SplitN (s sep : string) (n : Z) : list string := genSplit s sep 0 n.
Definition Split (s sep : string) : list string := genSplit s sep 0 (-1).

(* ===================================================================== *)
(** ** [strconv.Atoi] *)
(* ===================================================================== *)

(** The digit loop of [Atoi]: [ch -= '0'; if ch > 9 { syntax error };
    n = n*10 + int(ch)], the subtraction being on [byte]. *)
Fixpoint Atoi_loop (s : string) (n : Z) : option Z :=
  match s with
  | EmptyString => Some n
  | String ch s =>
      let ch := (N_of_ascii ch + 256 - 48) mod 256 in
      if 9 <? ch then None else Atoi_loop s (n * 10 + Z.of_N ch)%Z
  end.

Definition has_sign (s : string) : bool :=
  char_at_is s 0 "-" || char_at_is s 0 "+".

(** [strconv.Atoi(s)] on a 64-bit platform.  Strings of 1 to 18
    characters take the fast path of the source; the others go through
    [ParseInt(s, 10, 0)], which fails on the empty string and on a
    non-digit, and reports a range error outside [int64]. *)
Definition Atoi (s : string) : Z * option error :=
  let syntaxError := Some strconv_ErrSyntax in
  let rangeError := Some strconv_ErrRange in
  let s0 := s in
  let s := if has_sign s then sdrop 1 s else s in
  if ((0 <? len s0) && (len s0 <? 19))%Z then
    if (len s <? 1)%Z then (0%Z, syntaxError)
    else match Atoi_loop s 0 with
         | None => (0%Z, syntaxError)
         | Some n => (if char_at_is s0 0 "-" then (- n)%Z else n, None)
         end
  else
    if (len s <? 1)%Z then (0%Z, syntaxError)
    else match Atoi_loop s 0 with
         | None => (0%Z, syntaxError)
         | Some n =>
             let n := if char_at_is s0 0 "-" then (- n)%Z else n in
             if (n <? - 2 ^ 63)%Z then ((- 2 ^ 63)%Z, rangeError)
             else if (2 ^ 63 - 1 <? n)%Z then ((2 ^ 63 - 1)%Z, rangeError)
             else (n, None)
         end.

(* ===================================================================== *)
(** ** [time.Parse] for the layouts of the program *)
(* ===================================================================== *)

(** A [time.Time] obtained from [time.Date(..., time.UTC)] with every
    field in range, given by its calendar fields in UTC. *)
Record Time : Type := mkTime {
  year : Z; month : Z; day : Z;
  hour : Z; minute : Z; sec : Z; nsec : Z
}.

(** The zero [Time{}]: January 1, year 1, 00:00:00 UTC. *)
Definition zeroTime : Time := mkTime 1 1 1 0 0 0 0.

(** The pieces into which [nextStdChunk] cuts a layout: literal text and
    the standard chunks that the layouts of this program contain. *)
Inductive chunk : Type :=
  | lit (prefix : string)
  | stdZeroDay        (* "02" *)
  | stdZeroMonth      (* "01" *)
  | stdLongYear       (* "2006" *)
  | stdHour           (* "15" *)
  | stdZeroMinute     (* "04" *)
  | stdZeroSecond.    (* "05" *)

(** [time.isDigit(s, i)]. *)
Definition ascii_isDigit (c : ascii) : bool :=
  (48 <=? N_of_ascii c) && (N_of_ascii c <=? 57).

Definition isDigit (s : string) (i : nat) : bool :=
  match String.get i s with
  | Some c => ascii_isDigit c
  | None => false
  end.

(** [int(c - '0')] for a digit [c]. *)
Definition digit_val (c : ascii) : Z := Z.of_N (N_of_ascii c - 48).

(** [time.getnum(s, fixed)]: a one- or two-digit number, two digits
    required when [fixed]. *)
Definition getnum (s : string) (fixed : bool) : option (Z * string) :=
  match s with
  | EmptyString => None
  | String c0 s1 =>
      if negb (ascii_isDigit c0) then None
      else if negb (isDigit s 1) then
        if fixed then None else Some (digit_val c0, s1)
      else
        match s1 with
        | String c1 s2 => Some (digit_val c0 * 10 + digit_val c1, s2)%Z
        | EmptyString => None
        end
  end.

(** [time.leadingInt] followed by the test of [time.atoi] that nothing
    remains, on a string without sign. *)
Fixpoint atoi_digits (s : string) (x : Z) : option Z :=
  match s with
  | EmptyString => Some x
  | String c s =>
      if ascii_isDigit c then atoi_digits s (x * 10 + digit_val c)%Z else None
  end.

(** [time.cutspace(s)]. *)
Fixpoint cutspace (s : string) : string :=
  match s with
  | String " " s' => cutspace s'
  | _ => s
  end.

(** [time.skip(value, prefix)]; one turn per character of [prefix] at
    most (see [skip_loop_fuel]). *)
Fixpoint skip_loop (turns : nat) (value prefix : string) : option string :=
  match prefix with
  | EmptyString => Some value
  | String p0 prefix' =>
      match turns with
      | O => None
      | S turns =>
          if Ascii.eqb p0 " " then
            if (0 <? String.length value)%nat && negb (char_at_is value 0 " ")
            then None
            else skip_loop turns (cutspace value) (cutspace prefix)
          else
            match value with
            | String v0 value' =>
                if Ascii.eqb v0 p0 then skip_loop turns value' prefix' else None
            | EmptyString => None
            end
      end
  end.

Definition skip (value prefix : string) : option string :=
  skip_loop (String.length prefix) value prefix.

(** [time.commaOrPeriod(c)]. *)
Definition commaOrPeriod (c : ascii) : bool :=
  Ascii.eqb c "." || Ascii.eqb c ",".

(** The number of leading digits of [s]. *)
Fixpoint count_digits (s : string) : nat :=
  match s with
  | String c s' => if ascii_isDigit c then S (count_digits s') else O
  | EmptyString => O
  end.

(** [time.parseNanoseconds(value, nbytes)] where [value[0]] is a comma or
    period and [value[1:nbytes]] are digits: at most nine digits are kept
    and scaled to nanoseconds. *)
Definition parseNanoseconds (value : string) (nbytes : nat) : option Z :=
  let nbytes := Nat.min nbytes 10 in
  match atoi_digits (sslice 1 nbytes value) 0 with
  | None => None
  | Some ns => Some (ns * 10 ^ Z.of_nat (10 - nbytes))%Z
  end.

(** [time.isLeap(year)] and [time.daysIn(m, year)]. *)
Definition isLeap (y : Z) : bool :=
  ((y mod 4 =? 0) && (negb (y mod 100 =? 0) || (y mod 400 =? 0)))%Z.

Definition daysIn (m y : Z) : Z :=
  (if m =? 2 then (if isLeap y then 29 else 28)
   else if (m =? 4) || (m =? 6) || (m =? 9) || (m =? 11) then 30
   else 31)%Z.

(** One turn of the loop of [time.parse] on a standard chunk: the fields
    and the rest of the value, or [None] when the turn ends in a
    [ParseError] (bad syntax or a value out of range). *)
Definition parse_chunk (c : chunk) (t : Time) (value : string)
  : option (Time * string) :=
  match c with
  | lit prefix =>
      match skip value prefix with
      | Some value => Some (t, value)
      | None => None
      end
  | stdLongYear =>
      if (String.length value <? 4)%nat || negb (isDigit value 0) then None
      else
        match atoi_digits (sslice 0 4 value) 0 with
        | Some y =>
            Some (mkTime y (month t) (day t) (hour t) (minute t) (sec t) (nsec t),
                  sdrop 4 value)
        | None => None
        end
  | stdZeroMonth =>
      match getnum value true with
      | Some (m, value) =>
          if ((m <=? 0) || (12 <? m))%Z then None
          else Some (mkTime (year t) m (day t) (hour t) (minute t) (sec t) (nsec t),
                     value)
      | None => None
      end
  | stdZeroDay =>
      match getnum value true with
      | Some (d, value) =>
          Some (mkTime (year t) (month t) d (hour t) (minute t) (sec t) (nsec t),
                value)
      | None => None
      end
  | stdHour =>
      match getnum value false with
      | Some (h, value) =>
          if ((h <? 0) || (24 <=? h))%Z then None
          else Some (mkTime (year t) (month t) (day t) h (minute t) (sec t) (nsec t),
                     value)
      | None => None
      end
  | stdZeroMinute =>
      match getnum value true with
      | Some (m, value) =>
          if ((m <? 0) || (60 <=? m))%Z then None
          else Some (mkTime (year t) (month t) (day t) (hour t) m (sec t) (nsec t),
                     value)
      | None => None
      end
  | stdZeroSecond =>
      match getnum value true with
      | Some (s, value) =>
          if ((s <? 0) || (60 <=? s))%Z then None
          else
            let t := mkTime (year t) (month t) (day t) (hour t) (minute t) s (nsec t) in
            (* a fractional second in the value that the layout lacks *)
            match value with
            | String v0 value1 =>
                if (2 <=? String.length value)%nat && commaOrPeriod v0
                   && isDigit value 1
                then
                  let n := (1 + count_digits value1)%nat in
                  match parseNanoseconds value n with
                  | Some ns =>
                      Some (mkTime (year t) (month t) (day t) (hour t) (minute t)
                              (sec t) ns, sdrop n value)
                  | None => None
                  end
                else Some (t, value)
            | EmptyString => Some (t, value)
            end
      | None => None
      end
  end.

Fixpoint parse_chunks (layout : list chunk) (t : Time) (value : string)
  : option (Time * string) :=
  match layout with
  | [] => Some (t, value)
  | c :: layout =>
      match parse_chunk c t value with
      | Some (t, value) => parse_chunks layout t value
      | None => None
      end
  end.

(** [time.Parse(layout, value)], the layout given by its chunks: the
    chunks in turn, no text left over, month and day defaulting to 1, the
    day checked against the month, the result in UTC. *)
Definition Parse (layout : list chunk) (value : string) : Time * option error :=
  match parse_chunks layout (mkTime 0 (-1) (-1) 0 0 0 0) value with
  | None => (zeroTime, Some time_ParseError)
  | Some (t, value) =>
      if negb (String.length value =? 0)%nat then (zeroTime, Some time_ParseError)
      else
        let month := if (month t <? 0)%Z then 1%Z else month t in
        let day := if (day t <? 0)%Z then 1%Z else day t in
        if ((day <? 1) || (daysIn month (year t) <? day))%Z
        then (zeroTime, Some time_ParseError)
        else (mkTime (year t) month day (hour t) (minute t) (sec t) (nsec t), None)
  end.

(** The layouts of the program as [nextStdChunk] cuts them. *)

(** ["02/01/2006"] *)
Definition layout_date : list chunk :=
  [stdZeroDay; lit "/"; stdZeroMonth; lit "/"; stdLongYear].

(** ["15:04:05"] *)
Definition layout_time : list chunk :=
  [stdHour; lit ":"; stdZeroMinute; lit ":"; stdZeroSecond].

(** ["02/01/2006 15:04:05"] *)
Definition layout_datetime : list chunk :=
  [stdZeroDay; lit "/"; stdZeroMonth; lit "/"; stdLongYear; lit " ";
   stdHour; lit ":"; stdZeroMinute; lit ":"; stdZeroSecond].

(* ===================================================================== *)
(** ** The data model: [Header], [Track], [File] *)
(* ===================================================================== *)

Definition Header := string.

(** A slice expression out of range panics: [None]. *)
Definition Header_Version (h : Header) : option string :=
  if (8 <=? String.length h)%nat then Some (sslice 4 8 h) else None.

Definition Header_Time (h : Header) : option (Time * option error) :=
  if (10 <=? String.length h)%nat
  then Some (Parse layout_datetime (sdrop 10 h))
  else None.

Record Track : Type := mkTrack {
  ModeValue : byte;
  Cylinder : byte;
  Head : byte;
  NumberOfSectors : byte;
  SectorSize : byte;
  SectorNumberingMap : slice;
  SectorCylinderMap : slice;
  SectorHeadMap : slice;
  SectorDataRecords : list slice
}.

Record File : Type := mkFile {
  File_Header : Header;
  Comment : string;
  Tracks : list Track
}.

(** The zero [File]. *)
Definition zeroFile : File := mkFile "" "" [].

Definition sectorCylinderMapMask : N := N.shiftl 1 (0 + 6).
Definition sectorHeadMapMask : N := N.shiftl 1 (1 + 6).

(** [fill(dst, v)]: the loop [for i := 0; i < len(dst); i++ { dst[i] = v }],
    by the number of turns left. *)
Fixpoint fill_loop (turns i : nat) (dst : list byte) (v : byte) : list byte :=
  match turns with
  | O => dst
  | S turns => fill_loop turns (S i) (<[i := v]> dst) v
  end.

Definition fill (dst : list byte) (v : byte) : list byte :=
  fill_loop (length dst) 0 dst v.

(* ===================================================================== *)
(** ** [validateHeader] *)
(* ===================================================================== *)

Definition is_nil {A} (e : option A) : bool :=
  match e with None => true | Some _ => false end.

Definition validateHeader (input : Header) : option error :=
  if negb (HasPrefix input "IMD ") then
    Some (errors_New "does not start with 'IMD '")
  else
    match SplitN (sdrop 4 input) ": " 2 with
    | [version; datetime] =>
        if (String.length version <? 4)%nat
           || negb (char_at_is version 1 ".")
           || (6 <? String.length version)%nat
        then Some (errors_New "invalid version format")
        else if negb (is_nil (snd (Atoi (stake 1 version)))) then
          Some (errors_New "invalid major version number")
        else if negb (is_nil (snd (Atoi (sdrop 2 version)))) then
          Some (errors_New "invalid minor version number")
        else if negb (String.length datetime =? 19)%nat then
          Some (errors_New "invalid datetime length")
        else
          match Split datetime " " with
          | [date; timeStr] =>
              if negb (String.length date =? 10)%nat
                 || negb (char_at_is date 2 "/")
                 || negb (char_at_is date 5 "/")
              then Some (errors_New "invalid date format")
              else if negb (is_nil (snd (Parse layout_date date))) then
                Some (errors_New "invalid date values")
              else if negb (String.length timeStr =? 8)%nat
                      || negb (char_at_is timeStr 2 ":")
                      || negb (char_at_is timeStr 5 ":")
              then Some (errors_New "invalid time format")
              else if negb (is_nil (snd (Parse layout_time timeStr))) then
                Some (errors_New "invalid time values")
              else None
          | _ =>
              Some (errors_New
                "datetime should contain a date and time separated by space")
          end
    | _ => Some (errors_New "missing ': ' separator")
    end.

(* ===================================================================== *)
(** ** [Decode] *)
(* ===================================================================== *)

(** [int(b)] of a byte as a length. *)
Definition byte_len (b : byte) : nat := N.to_nat (Byte.to_N b).

(** The sector loop [for i := byte(0); i < numberOfSectors; i++ { ... }]
    of [Decode], by the number [numberOfSectors - i] of turns left.  The
    variable [record] is declared outside the loop and read into on each
    turn; [sectorDataRecords] is updated at index [i], which stays below
    its length [numberOfSectors].  The result is
    [sectorDataRecords], the error of a [return file, err] inside the loop
    ([None] when the loop runs to its end) and the reader. *)
Fixpoint sectorLoop (turns i : nat) (sectorSize : byte) (r : Reader)
    (record : byte) (sectorDataRecords : list slice)
  : list slice * option error * Reader :=
  match turns with
  | O => (sectorDataRecords, None, r)
  | S turns =>
      let '(record, err, r) := readBytePtr r record in
      match err with
      | Some err => (sectorDataRecords, Some err, r)
      | None =>
          match Byte.to_N record with
          | 0 => (* unavailable *)
              sectorLoop turns (S i) sectorSize r record sectorDataRecords
          | 1 | 3 | 5 | 7 => (* regular sector data *)
              (* the slice made for index [i] is the buffer read into *)
              let '(buf, _, err, r) := Read r (make (byte_len sectorSize)) in
              let sectorDataRecords := <[i := Some buf]> sectorDataRecords in
              match err with
              | Some err => (sectorDataRecords, Some err, r)
              | None =>
                  sectorLoop turns (S i) sectorSize r record sectorDataRecords
              end
          | 2 | 4 | 6 | 8 => (* compressed (all bytes are the same) *)
              let '(v, err, r) := readByte r in
              match err with
              | Some err => (sectorDataRecords, Some err, r)
              | None =>
                  let sectorDataRecords :=
                    <[i := Some (fill (make (byte_len sectorSize)) v)]>
                      sectorDataRecords in
                  sectorLoop turns (S i) sectorSize r record sectorDataRecords
              end
          | _ => (* no case of the switch *)
              sectorLoop turns (S i) sectorSize r record sectorDataRecords
          end
      end
  end.

(** How a turn of the loop [for { ... }] of [Decode] ends: in a [break],
    in a [return file, err], or at the end of the body, from where the
    loop takes its next turn. *)
Inductive loop_exit : Type :=
  | loop_break
  | loop_return (err : error)
  | loop_next.

(** The body of the loop [for { ... }] at lines 58 to 139 of [Decode], as
    a function of the [file] built so far and the reader. *)
Definition Decode_for_body (file : File) (r : Reader)
  : File * loop_exit * Reader :=
  let '(modeValue, err, r) := readByte r in
  match err with Some _ => (file, loop_break, r) | None =>
  let '(cylinder, err, r) := readByte r in
  match err with Some err => (file, loop_return err, r) | None =>
  let '(head, err, r) := readByte r in
  match err with Some err => (file, loop_return err, r) | None =>
  let '(numberOfSectors, err, r) := readByte r in
  match err with Some err => (file, loop_return err, r) | None =>
  let '(sectorSize, err, r) := readByte r in
  match err with Some err => (file, loop_return err, r) | None =>
  let '(sectorNumberingMap, _, err, r) :=
    Read r (make (byte_len numberOfSectors)) in
  match err with Some err => (file, loop_return err, r) | None =>
  let sectorNumberingMap : slice := Some sectorNumberingMap in
  let '(sectorCylinderMap, err, r) :=
    if negb (N.land (Byte.to_N head) sectorCylinderMapMask =? 0) then
      let '(m, _, err, r) := Read r (make (byte_len numberOfSectors)) in
      (Some m, err, r)
    else (None, None, r) in
  match err with Some err => (file, loop_return err, r) | None =>
  let '(sectorHeadMap, err, r) :=
    if negb (N.land (Byte.to_N head) sectorHeadMapMask =? 0) then
      let '(m, _, err, r) := Read r (make (byte_len numberOfSectors)) in
      (Some m, err, r)
    else (None, None, r) in
  match err with Some err => (file, loop_return err, r) | None =>
  let sectorDataRecords : list slice :=
    replicate (byte_len numberOfSectors) None in
  let record := x00 in
  let '(sectorDataRecords, err, r) :=
    sectorLoop (byte_len numberOfSectors) 0 sectorSize r record
      sectorDataRecords in
  match err with Some err => (file, loop_return err, r) | None =>
  let file :=
    mkFile (File_Header file) (Comment file)
      (Tracks file ++
         [mkTrack modeValue cylinder head numberOfSectors sectorSize
            sectorNumberingMap sectorCylinderMap sectorHeadMap
            sectorDataRecords]) in
  (* line 138 *)
  (file, loop_break, r)
  end end end end end end end end end.

(** The loop [for { ... }] of [Decode] and the [return file, nil] that
    follows it, by the number of turns allowed.  No turn of the loop is
    followed by another (see [Decode_for_body_exits]), so that any number
    of turns from one on gives the same result (see [Decode_for_turns]). *)
Fixpoint Decode_for (turns : nat) (file : File) (r : Reader)
  : File * option error * Reader :=
  match turns with
  | O => (file, None, r)
  | S turns =>
      match Decode_for_body file r with
      | (file, loop_break, r) => (file, None, r)
      | (file, loop_return err, r) => (file, Some err, r)
      | (file, loop_next, r) => Decode_for turns file r
      end
  end.

(** [Decode(r)].  The result is the [file], the [err] and the reader after
    the call. *)
Definition Decode (r : Reader) : File * option error * Reader :=
  let file := zeroFile in
  let '(header, _, err, r) := Read r (make 29) in
  match err with Some err => (file, Some err, r) | None =>
  let file := mkFile (string_of_bytes header) (Comment file) (Tracks file) in
  match validateHeader (File_Header file) with
  | Some err => (file, Some err, r) | None =>
  let '(comment, err, r) := readStringASCIIEOF r in
  let file := mkFile (File_Header file) comment (Tracks file) in
  match err with Some err => (file, Some err, r) | None =>
  Decode_for (S (length r)) file r
  end end end.

(** The bytes of a text. *)
Definition bytes (s : string) : list byte := list_byte_of_string s.

(* ===================================================================== *)
(** ** Notions used to state the properties *)
(* ===================================================================== *)

(** The text that [readStringASCIIEOF] accumulates from the bytes [l]:
    [str += string(byt[0])] for each of them. *)
Fixpoint string_of_runes (l : list byte) : string :=
  match l with
  | [] => ""
  | b :: l => (string_of_rune b ++ string_of_runes l)%string
  end.

(** A 7-bit (ASCII) byte. *)
Definition is_ascii (b : byte) : Prop := Byte.to_N b < 128.

(** The two groups of discriminants of the [switch] in the sector loop. *)
Definition is_verbatim (d : byte) : bool :=
  match Byte.to_N d with 1 | 3 | 5 | 7 => true | _ => false end.

Definition is_compressed (d : byte) : bool :=
  match Byte.to_N d with 2 | 4 | 6 | 8 => true | _ => false end.

Definition same_group (d d' : byte) : bool :=
  (is_verbatim d && is_verbatim d') || (is_compressed d && is_compressed d').

(** The flag bits of the head byte. *)
Definition has_cylinder_map (head : byte) : bool :=
  negb (N.land (Byte.to_N head) sectorCylinderMapMask =? 0).

Definition has_head_map (head : byte) : bool :=
  negb (N.land (Byte.to_N head) sectorHeadMapMask =? 0).

(** A data buffer is absent or has the sector size [z]. *)
Definition slot_ok (z : byte) (s : slice) : Prop :=
  forall buf, s = Some buf -> length buf = byte_len z.


(** The invariants of a decoded track. *)
Definition track_invariant (t : Track) : Prop :=
  let n := byte_len (NumberOfSectors t) in
  (exists nm, SectorNumberingMap t = Some nm /\ length nm = n)
  /\ (forall cm, SectorCylinderMap t = Some cm -> length cm = n)
  /\ (forall hm, SectorHeadMap t = Some hm -> length hm = n)
  /\ length (SectorDataRecords t) = n
  /\ (forall buf, Some buf ∈ SectorDataRecords t ->
        length buf = byte_len (SectorSize t))
  /\ Byte.to_N (NumberOfSectors t) <= 255
  /\ Byte.to_N (SectorSize t) <= 255.

(** The bytes of an image: the header, the comment and its sentinel, the
    five bytes that open a track, the three maps, and [sectors], the
    bytes from the first sector record on. *)
Definition image (hdr comment : list byte) (m c h n z : byte)
    (nm cm hm sectors : list byte) : list byte :=
  hdr ++ comment ++ x1a :: m :: c :: h :: n :: z :: nm ++ cm ++ hm ++ sectors.

(** The parts of an image have the lengths that [Decode] reads: 29 bytes
    of header, a comment without the sentinel in it, maps of as many
    bytes as there are sectors, the cylinder map and the head map empty
    unless the head byte announces them. *)
Definition image_shape (hdr comment : list byte) (h n : byte)
    (nm cm hm : list byte) : Prop :=
  length hdr = 29%nat
  /\ (x1a ∉ comment)
  /\ length nm = byte_len n
  /\ length cm = (if has_cylinder_map h then byte_len n else 0%nat)
  /\ length hm = (if has_head_map h then byte_len n else 0%nat).

(** In a track of [n] sectors of size [z] whose sector records are the
    bytes [secs ++ rest], the record of slot [j] starts at [rest]: the
    first [j] turns of the sector loop read [secs], no more and no less,
    and do not fail. *)
Definition slot_starts_at (z n : byte) (j : nat) (secs rest : list byte) : Prop :=
  (j < byte_len n)%nat /\ rest <> []
  /\ exists recs,
       sectorLoop j 0 z (secs ++ rest) x00 (replicate (byte_len n) None)
       = (recs, None, rest).

(** *** Sample images *)

Definition hdr_1 : list byte := bytes "IMD 1.18: 15/03/2021 10:30:00".
Definition comment_1 : list byte := bytes "hi".

(** An image with one track of three sectors of four bytes (a verbatim
    one, an unavailable one, a compressed one) and one more byte, and the
    track that [Decode] makes of it. *)
Definition stream_1 : list byte :=
  image hdr_1 comment_1 x05 x00 xc0 x03 x04
    [x01; x02; x03] [x00; x00; x00] [x01; x01; x01]
    ([x01; xaa; xbb; xcc; xdd] ++ [x00] ++ [x02; xee] ++ [xff]).

Definition track_1 : Track :=
  mkTrack x05 x00 xc0 x03 x04 (Some [x01; x02; x03])
    (Some [x00; x00; x00]) (Some [x01; x01; x01])
    [Some [xaa; xbb; xcc; xdd]; None; Some [xee; xee; xee; xee]].

(** The same image with the discriminant 9 in the second sector record. *)
Definition stream_unrecognized : list byte :=
  image hdr_1 comment_1 x05 x00 xc0 x03 x04
    [x01; x02; x03] [x00; x00; x00] [x01; x01; x01]
    ([x01; xaa; xbb; xcc; xdd] ++ [x09] ++ [x02; xee] ++ [xff]).

(** The bytes of two tracks of one sector of two bytes each, the first
    on cylinder 0, the second on cylinder 1. *)
Definition track_bytes_a : list byte :=
  [x05; x00; x00; x01; x02;  x01;  x01; x11; x12].
Definition track_bytes_b : list byte :=
  [x05; x01; x00; x01; x02;  x01;  x01; x21; x22].

Definition track_a : Track :=
  mkTrack x05 x00 x00 x01 x02 (Some [x01]) None None [Some [x11; x12]].
Definition track_b : Track :=
  mkTrack x05 x01 x00 x01 x02 (Some [x01]) None None [Some [x21; x22]].

(** An image with these two tracks. *)
Definition stream_two_tracks : list byte :=
  hdr_1 ++ comment_1 ++ [x1a] ++ track_bytes_a ++ track_bytes_b.

(** An image that ends within the payload of the only sector of its
    track: four bytes announced, two present. *)
Definition stream_short_payload : list byte :=
  hdr_1 ++ comment_1 ++ [x1a]
    ++ [x05; x00; x00; x01; x04;  x01;  x01; xaa; xbb].

(** *** Headers of the canonical pattern *)

(** The numbers that two and four digits write. *)
Definition num2 (a b : ascii) : Z := digit_val a * 10 + digit_val b.

Definition num4 (a b c d : ascii) : Z :=
  ((digit_val a * 10 + digit_val b) * 10 + digit_val c) * 10 + digit_val d.

(** The texts ["dd/mm/yyyy"], ["hh:mm:ss"] and ["v.vv"] with the given
    characters for the letters. *)
Definition date_text (d0 d1 m0 m1 y0 y1 y2 y3 : ascii) : string :=
  String d0 (String d1 (String "/" (String m0 (String m1 (String "/"
    (String y0 (String y1 (String y2 (String y3 ""))))))))).

Definition time_text (h0 h1 mi0 mi1 s0 s1 : ascii) : string :=
  String h0 (String h1 (String ":" (String mi0 (String mi1 (String ":"
    (String s0 (String s1 ""))))))).

Definition version_text (v0 v2 v3 : ascii) : string :=
  String v0 (String "." (String v2 (String v3 ""))).

(** A calendar date in day/month/year order: digits, a month from 1 to
    12, a day from 1 to the last day of that month in that year. *)
Definition valid_date (d0 d1 m0 m1 y0 y1 y2 y3 : ascii) : Prop :=
  ascii_isDigit d0 = true /\ ascii_isDigit d1 = true
  /\ ascii_isDigit m0 = true /\ ascii_isDigit m1 = true
  /\ ascii_isDigit y0 = true /\ ascii_isDigit y1 = true
  /\ ascii_isDigit y2 = true /\ ascii_isDigit y3 = true
  /\ (1 <= num2 m0 m1 <= 12)%Z
  /\ (1 <= num2 d0 d1 <= daysIn (num2 m0 m1) (num4 y0 y1 y2 y3))%Z.

(** A time of the 24-hour clock: digits, an hour below 24, minutes and
    seconds below 60. *)
Definition valid_time (h0 h1 mi0 mi1 s0 s1 : ascii) : Prop :=
  ascii_isDigit h0 = true /\ ascii_isDigit h1 = true
  /\ ascii_isDigit mi0 = true /\ ascii_isDigit mi1 = true
  /\ ascii_isDigit s0 = true /\ ascii_isDigit s1 = true
  /\ (num2 h0 h1 < 24)%Z /\ (num2 mi0 mi1 < 60)%Z /\ (num2 s0 s1 < 60)%Z.

(** The header ["IMD v.vv: dd/mm/yyyy hh:mm:ss"] with the given characters
    for the letters. *)
Definition header_text (v0 v2 v3 d0 d1 m0 m1 y0 y1 y2 y3 h0 h1 mi0 mi1 s0 s1 : ascii)
  : Header :=
  ("IMD " ++ version_text v0 v2 v3 ++ ": "
     ++ date_text d0 d1 m0 m1 y0 y1 y2 y3 ++ " "
     ++ time_text h0 h1 mi0 mi1 s0 s1)%string.

(** *** Notions for further properties *)

(** The minor version of a header of 29 bytes, as [strconv.Atoi] accepts
    it: a digit, or a sign, followed by a digit. *)
Definition minor_ok (a b : ascii) : bool :=
  (ascii_isDigit a || Ascii.eqb a "-" || Ascii.eqb a "+") && ascii_isDigit b.

(** In a track of [n] sectors of size [z], the sector records are the
    bytes [secs] and are followed by [rest]: the sector loop reads
    [secs], no more and no less, does not fail, and leaves the records
    [recs]. *)
Definition records_end_at (z n : byte) (secs rest : list byte)
    (recs : list slice) : Prop :=
  rest <> []
  /\ sectorLoop (byte_len n) 0 z (secs ++ rest) x00
       (replicate (byte_len n) None)
     = (recs, None, rest).

(** The number of bytes from 0x80 on in [l]. *)
Definition count_non_ascii (l : list byte) : nat :=
  length (List.filter (fun b => 128 <=? Byte.to_N b) l).

(* ===================================================================== *)
(** * Properties *)
(* ===================================================================== *)

(** ** The reader *)

Lemma Read_nil p : Read [] p = (p, 0%nat, Some io_EOF, []).
Proof. reflexivity. Qed.

Lemma Read_one b r x : Read (b :: r) [x] = ([b], 1%nat, None, r).
Proof. reflexivity. Qed.

(** A buffer keeps its length. *)
Lemma Read_length r p buf n err r' :
  Read r p = (buf, n, err, r') -> length buf = length p.
Proof.
  destruct r as [|b r]; intros H.
  - by inversion H.
  - unfold Read in H. inversion H; subst; clear H.
    rewrite length_app, length_take, length_drop. cbn [length]. lia.
Qed.

(** A read takes what is there, up to the length of the buffer, and fails
    at the end only. *)
Lemma Read_rest r p buf n err r' :
  Read r p = (buf, n, err, r') ->
  r' = drop n r /\ n = Nat.min (length p) (length r)
  /\ (err = None <-> r <> []).
Proof.
  destruct r as [|b r]; intros H.
  - inversion H; subst. cbn [length]. repeat split; try lia; try done.
  - unfold Read in H. inversion H; subst; clear H.
    repeat split; try done.
Qed.

(** With enough bytes ahead the buffer is filled. *)
Lemma Read_full a rest p :
  length a = length p -> a ++ rest <> [] ->
  Read (a ++ rest) p = (a, length a, None, rest).
Proof.
  intros Hlen Hne. destruct (a ++ rest) as [|b r] eqn:E; [done|].
  unfold Read. rewrite <- E.
  assert (Hmin : Nat.min (length p) (length (a ++ rest)) = length a)
    by (rewrite length_app; lia).
  rewrite Hmin, take_app_length, drop_app_length.
  rewrite Hlen, drop_all. by rewrite app_nil_r.
Qed.

Lemma readBytePtr_cons b r dst : readBytePtr (b :: r) dst = (b, None, r).
Proof. reflexivity. Qed.

Lemma readBytePtr_nil dst : readBytePtr [] dst = (dst, Some io_EOF, []).
Proof. reflexivity. Qed.

Lemma readByte_cons b r : readByte (b :: r) = (b, None, r).
Proof. reflexivity. Qed.

Lemma readByte_nil : readByte [] = (x00, Some io_EOF, []).
Proof. reflexivity. Qed.

Lemma length_make n : length (make n) = n.
Proof. apply length_replicate. Qed.

Lemma app_ne_nil_r {A} (a b : list A) : b <> [] -> a ++ b <> [].
Proof. intros H E. by apply app_eq_nil in E as [_ E]. Qed.

Ltac solve_ne := repeat apply app_ne_nil_r; first [assumption | discriminate].

(** ** The comment reader *)

Lemma string_app_assoc (a b c : string) : ((a ++ b) ++ c = a ++ (b ++ c))%string.
Proof. induction a; simpl; congruence. Qed.

Lemma string_app_nil_r (a : string) : (a ++ "")%string = a.
Proof. induction a; simpl; congruence. Qed.

Lemma readStringASCIIEOF_loop_step turns b r str :
  readStringASCIIEOF_loop (S turns) (b :: r) str =
    if Byte.eqb b x1a then (str, None, r)
    else readStringASCIIEOF_loop turns r (str ++ string_of_rune b)%string.
Proof. reflexivity. Qed.

Lemma readStringASCIIEOF_loop_sentinel T : forall turns rest str,
  x1a ∉ T -> (length T < turns)%nat ->
  readStringASCIIEOF_loop turns (T ++ x1a :: rest) str
  = ((str ++ string_of_runes T)%string, None, rest).
Proof.
  induction T as [|b T IH]; intros turns rest str Hnot Hlt.
  - destruct turns; [simpl in Hlt; lia|]. simpl. by rewrite string_app_nil_r.
  - destruct turns; [simpl in Hlt; lia|].
    apply not_elem_of_cons in Hnot as [Hb HT].
    rewrite <- app_comm_cons, readStringASCIIEOF_loop_step.
    destruct (Byte.eqb b x1a) eqn:E.
    + apply Byte.byte_dec_bl in E. congruence.
    + rewrite IH; [|done|simpl in Hlt; lia]. by rewrite string_app_assoc.
Qed.

Lemma readStringASCIIEOF_loop_eof s : forall turns str,
  x1a ∉ s -> (length s < turns)%nat ->
  readStringASCIIEOF_loop turns s str
  = ((str ++ string_of_runes s)%string, Some io_EOF, []).
Proof.
  induction s as [|b s IH]; intros turns str Hnot Hlt.
  - destruct turns; [simpl in Hlt; lia|]. simpl. by rewrite string_app_nil_r.
  - destruct turns; [simpl in Hlt; lia|].
    apply not_elem_of_cons in Hnot as [Hb HT].
    rewrite readStringASCIIEOF_loop_step.
    destruct (Byte.eqb b x1a) eqn:E.
    + apply Byte.byte_dec_bl in E. congruence.
    + rewrite IH; [|done|simpl in Hlt; lia]. by rewrite string_app_assoc.
Qed.

Lemma readStringASCIIEOF_sentinel T rest :
  x1a ∉ T ->
  readStringASCIIEOF (T ++ x1a :: rest) = (string_of_runes T, None, rest).
Proof.
  intros H. unfold readStringASCIIEOF.
  rewrite readStringASCIIEOF_loop_sentinel; [done..|].
  rewrite length_app. simpl. lia.
Qed.

(** The turns given to the loop are never used up: with more turns the
    result is the same. *)
Lemma readStringASCIIEOF_loop_fuel r : forall turns str,
  (length r < turns)%nat ->
  readStringASCIIEOF_loop turns r str
  = readStringASCIIEOF_loop (S (length r)) r str.
Proof.
  induction r as [|b r IH]; intros turns str Hlt.
  - destruct turns; [simpl in Hlt; lia|]. reflexivity.
  - destruct turns; [simpl in Hlt; lia|].
    change (length (b :: r)) with (S (length r)).
    rewrite !readStringASCIIEOF_loop_step.
    destruct (Byte.eqb b x1a); [done|].
    apply IH. simpl in Hlt. lia.
Qed.

Lemma string_of_runes_ascii T :
  Forall is_ascii T -> string_of_runes T = string_of_bytes T.
Proof.
  induction 1 as [|b T Hb _ IH]; [done|].
  simpl. unfold string_of_rune.
  apply N.ltb_lt in Hb. rewrite Hb. simpl. rewrite IH. reflexivity.
Qed.

(** C6.  On the bytes of an ASCII text [T] without the sentinel 0x1A in
    it, followed by the sentinel, [readStringASCIIEOF] returns the text
    [T] and no error, and leaves the reader after the sentinel; on a
    stream [s] without any sentinel it returns the error [io.EOF]. *)
Theorem comment_roundtrip (T rest s : list byte)
    (Hascii : Forall is_ascii T) (Hsentinel : x1a ∉ T) (Hs : x1a ∉ s) :
  readStringASCIIEOF (T ++ x1a :: rest) = (string_of_bytes T, None, rest)
  /\ exists str r, readStringASCIIEOF s = (str, Some io_EOF, r).
Proof.
  split.
  - rewrite readStringASCIIEOF_sentinel by done.
    by rewrite string_of_runes_ascii.
  - unfold readStringASCIIEOF.
    rewrite readStringASCIIEOF_loop_eof; [eauto|done|lia].
Qed.

Lemma comment_roundtrip_witness :
  Forall is_ascii (bytes "hi") /\ (x1a ∉ bytes "hi") /\ (x1a ∉ bytes "no end")
  /\ readStringASCIIEOF (bytes "hi" ++ x1a :: [x05])
     = (string_of_bytes (bytes "hi"), None, [x05])
  /\ exists str r, readStringASCIIEOF (bytes "no end") = (str, Some io_EOF, r).
Proof.
  assert (H1 : Forall is_ascii (bytes "hi")) by (repeat constructor).
  assert (H2 : x1a ∉ bytes "hi")
    by (apply (bool_decide_unpack _); vm_compute; exact I).
  assert (H3 : x1a ∉ bytes "no end")
    by (apply (bool_decide_unpack _); vm_compute; exact I).
  split; [exact H1|]. split; [exact H2|]. split; [exact H3|].
  exact (comment_roundtrip (bytes "hi") [x05] (bytes "no end") H1 H2 H3).
Defined.

(** ** The sector loop *)

(** *** [fill] *)

Lemma fill_loop_spec v : forall turns i dst,
  (i + turns = length dst)%nat ->
  fill_loop turns i dst v = take i dst ++ replicate turns v.
Proof.
  induction turns as [|turns IH]; intros i dst Hlen; simpl.
  - rewrite take_ge by lia. by rewrite app_nil_r.
  - rewrite IH by (rewrite length_insert; lia).
    rewrite take_S_r with (x := v) by (apply list_lookup_insert_eq; lia).
    rewrite take_insert_ge by lia.
    by rewrite <- app_assoc.
Qed.

Lemma fill_make n v : fill (make n) v = replicate n v.
Proof.
  unfold fill. rewrite fill_loop_spec by lia.
  unfold make. by rewrite take_0, length_replicate.
Qed.

(** *** The sector loop, turn by turn *)

Lemma sectorLoop_eof turns i z record recs :
  sectorLoop (S turns) i z [] record recs = (recs, Some io_EOF, []).
Proof. reflexivity. Qed.

Lemma sectorLoop_verbatim turns i z d r record recs :
  is_verbatim d = true ->
  sectorLoop (S turns) i z (d :: r) record recs =
    let '(buf, _, err, r) := Read r (make (byte_len z)) in
    match err with
    | Some err => (<[i := Some buf]> recs, Some err, r)
    | None => sectorLoop turns (S i) z r d (<[i := Some buf]> recs)
    end.
Proof. destruct d; first [discriminate | reflexivity]. Qed.

Lemma sectorLoop_compressed turns i z d r record recs :
  is_compressed d = true ->
  sectorLoop (S turns) i z (d :: r) record recs =
    match r with
    | [] => (recs, Some io_EOF, [])
    | v :: r =>
        sectorLoop turns (S i) z r d (<[i := Some (replicate (byte_len z) v)]> recs)
    end.
Proof.
  intros H.
  assert (E : sectorLoop (S turns) i z (d :: r) record recs =
    let '(v, err, r) := readByte r in
    match err with
    | Some err => (recs, Some err, r)
    | None =>
        sectorLoop turns (S i) z r d
          (<[i := Some (fill (make (byte_len z)) v)]> recs)
    end)
    by (destruct d; first [discriminate | reflexivity]).
  rewrite E. destruct r as [|v r]; [done|].
  rewrite readByte_cons. by rewrite fill_make.
Qed.

Lemma sectorLoop_other turns i z d r record recs :
  is_verbatim d = false -> is_compressed d = false ->
  sectorLoop (S turns) i z (d :: r) record recs =
    sectorLoop turns (S i) z r d recs.
Proof. destruct d; first [discriminate | reflexivity]. Qed.

(** One turn of the loop, by the discriminant read. *)
Lemma sectorLoop_turn turns i z r record recs :
  sectorLoop (S turns) i z r record recs =
    match r with
    | [] => (recs, Some io_EOF, [])
    | d :: r =>
        if is_verbatim d then
          let '(buf, _, err, r) := Read r (make (byte_len z)) in
          match err with
          | Some err => (<[i := Some buf]> recs, Some err, r)
          | None => sectorLoop turns (S i) z r d (<[i := Some buf]> recs)
          end
        else if is_compressed d then
          match r with
          | [] => (recs, Some io_EOF, [])
          | v :: r =>
              sectorLoop turns (S i) z r d
                (<[i := Some (replicate (byte_len z) v)]> recs)
          end
        else sectorLoop turns (S i) z r d recs
    end.
Proof.
  destruct r as [|d r]; [done|].
  destruct (is_verbatim d) eqn:Ev; [by apply sectorLoop_verbatim|].
  destruct (is_compressed d) eqn:Ec; [by apply sectorLoop_compressed|].
  by apply sectorLoop_other.
Qed.

(** The value of [record] on entry does not matter: each turn reads it
    anew or returns. *)
Lemma sectorLoop_record turns i z r record record' recs :
  sectorLoop turns i z r record recs = sectorLoop turns i z r record' recs.
Proof. destruct turns; [done|]. by rewrite !sectorLoop_turn. Qed.

Lemma sectorLoop_invariant z : forall turns i r record recs recs' err r',
  sectorLoop turns i z r record recs = (recs', err, r') ->
  length recs' = length recs
  /\ (Forall (slot_ok z) recs -> Forall (slot_ok z) recs')
  /\ (forall j, (j < i)%nat -> recs' !! j = recs !! j)
  /\ (length r' <= length r)%nat.
Proof.
  induction turns as [|turns IH]; intros i r record recs recs' err r' H.
  - inversion H; subst. repeat split; auto.
  - rewrite sectorLoop_turn in H.
    destruct r as [|d r]; [inversion H; subst; repeat split; auto|].
    destruct (is_verbatim d).
    + destruct (Read r (make (byte_len z))) as [[[buf n] e] r1] eqn:ER.
      pose proof (Read_length _ _ _ _ _ _ ER) as Hlen.
      pose proof (Read_rest _ _ _ _ _ _ ER) as (-> & Hn & _).
      assert (Hok : Forall (slot_ok z) recs ->
                    Forall (slot_ok z) (<[i := Some buf]> recs)).
      { intros HF. apply Forall_insert; [done|].
        intros b [= <-]. rewrite Hlen. unfold make. by rewrite length_replicate. }
      destruct e as [e|].
      * inversion H; subst. rewrite length_insert, length_drop.
        cbn [length]. repeat split; auto; try lia.
        all: intros j Hj; apply list_lookup_insert_ne; lia.
      * apply IH in H as (H1 & H2 & H3 & H4).
        rewrite length_insert in H1. rewrite length_drop in H4.
        cbn [length]. repeat split; auto; try lia.
        all: intros j Hj; rewrite H3 by lia; apply list_lookup_insert_ne; lia.
    + destruct (is_compressed d).
      * destruct r as [|v r]; [inversion H; subst; cbn [length]; repeat split; auto; lia|].
        apply IH in H as (H1 & H2 & H3 & H4).
        rewrite length_insert in H1.
        cbn [length]. repeat split; auto; try lia.
        -- intros HF. apply H2. apply Forall_insert; [done|].
           intros b [= <-]. by rewrite length_replicate.
        -- intros j Hj. rewrite H3 by lia. apply list_lookup_insert_ne. lia.
      * apply IH in H as (H1 & H2 & H3 & H4).
        cbn [length]. repeat split; auto; try lia.
        all: intros j Hj; apply H3; lia.
Qed.

(** *** The sector loop, slot by slot *)

(** The first [j] turns, then the others. *)
Lemma sectorLoop_add z j : forall k i r record recs,
  sectorLoop (j + k) i z r record recs =
    let '(recs1, err, r1) := sectorLoop j i z r record recs in
    match err with
    | Some err => (recs1, Some err, r1)
    | None => sectorLoop k (i + j) z r1 record recs1
    end.
Proof.
  induction j as [|j IH]; intros k i r record recs.
  - cbn [Nat.add sectorLoop]. by rewrite Nat.add_0_r.
  - change (S j + k)%nat with (S (j + k)). rewrite !sectorLoop_turn.
    destruct r as [|d r]; [done|].
    replace (i + S j)%nat with (S i + j)%nat by lia.
    destruct (is_verbatim d).
    { destruct (Read r (make (byte_len z))) as [[[buf n] [e|]] r1]; [done|].
      rewrite IH. destruct (sectorLoop j _ _ _ _ _) as [[recs1 [e|]] r2]; [done|].
      apply sectorLoop_record. }
    destruct (is_compressed d).
    { destruct r as [|v r]; [done|].
      rewrite IH. destruct (sectorLoop j _ _ _ _ _) as [[recs1 [e|]] r2]; [done|].
      apply sectorLoop_record. }
    rewrite IH. destruct (sectorLoop j _ _ _ _ _) as [[recs1 [e|]] r2]; [done|].
    apply sectorLoop_record.
Qed.

(** A turn that does not fail consumes at least the discriminant. *)
Lemma sectorLoop_consumes z turns i r record recs recs' r' :
  sectorLoop (S turns) i z r record recs = (recs', None, r') ->
  (length r' < length r)%nat.
Proof.
  rewrite sectorLoop_turn. destruct r as [|d r]; [done|]. cbn [length].
  destruct (is_verbatim d).
  { destruct (Read r (make (byte_len z))) as [[[buf n] [e|]] r1] eqn:ER; [done|].
    apply Read_rest in ER as (-> & _ & _).
    intros H. apply sectorLoop_invariant in H as (_ & _ & _ & H).
    rewrite length_drop in H. lia. }
  destruct (is_compressed d).
  { destruct r as [|v r]; [done|].
    intros H. apply sectorLoop_invariant in H as (_ & _ & _ & H).
    cbn [length]. lia. }
  intros H. apply sectorLoop_invariant in H as (_ & _ & _ & H). lia.
Qed.

(** Turns that stop short of the end of the reader have not looked at
    what they left: the bytes left can be replaced. *)
Lemma sectorLoop_local z j : forall i pre suf record recs recs1,
  sectorLoop j i z (pre ++ suf) record recs = (recs1, None, suf) ->
  suf <> [] ->
  forall suf', suf' <> [] ->
  sectorLoop j i z (pre ++ suf') record recs = (recs1, None, suf').
Proof.
  induction j as [|j IH]; intros i pre suf record recs recs1 H Hsuf suf' Hsuf'.
  - cbn in H. injection H as <- E.
    assert (pre = []) as ->; [|done].
    apply (f_equal length) in E. rewrite length_app in E.
    apply nil_length_inv. lia.
  - destruct pre as [|d pre].
    { apply sectorLoop_consumes in H. cbn [app] in H. lia. }
    rewrite <- !app_comm_cons, sectorLoop_turn. rewrite <- app_comm_cons, sectorLoop_turn in H.
    destruct (is_verbatim d).
    { destruct (Read (pre ++ suf) (make (byte_len z))) as [[[buf n] e] r1] eqn:ER.
      pose proof (Read_rest _ _ _ _ _ _ ER) as (-> & Hn & He).
      destruct e as [e|]; [done|].
      pose proof H as H'.
      apply sectorLoop_invariant in H' as (_ & _ & _ & Hle).
      rewrite length_drop, length_app in Hle.
      assert (Hsl : (0 < length suf)%nat) by (destruct suf; [done|cbn; lia]).
      assert (Hnk : n = byte_len z).
      { rewrite length_make, length_app in Hn. lia. }
      assert (Hpre : pre = take n pre ++ drop n pre) by (by rewrite take_drop).
      assert (Hlt : length (take n pre) = length (make (byte_len z))).
      { rewrite length_take, length_make. lia. }
      rewrite Hpre, <- app_assoc in ER.
      rewrite Read_full in ER by (try done; solve_ne).
      injection ER as <- _.
      rewrite Hpre, <- app_assoc.
      rewrite Read_full by (try done; solve_ne).
      apply IH with (suf := suf); [|done..].
      rewrite drop_app_le in H by lia. exact H. }
    destruct (is_compressed d).
    { destruct pre as [|v pre].
      - cbn [app] in H. destruct suf as [|v suf]; [done|].
        apply sectorLoop_invariant in H as (_ & _ & _ & Hle). cbn in Hle. lia.
      - rewrite <- app_comm_cons in *. by apply IH with (suf := suf). }
    by apply IH with (suf := suf).
Qed.

(** ** [Decode] *)

(** *** What [Decode] returns *)

(** Each turn of the loop over the tracks ends in a [break] or in a
    [return]: none is followed by another. *)
Lemma Decode_for_body_exits file r : (Decode_for_body file r).1.2 <> loop_next.
Proof.
  unfold Decode_for_body.
  repeat match goal with
  | |- context [readByte ?r] => destruct (readByte r) as [[? [?|]] ?]; [done|]
  | |- context [if ?b then _ else _] => destruct b
  | |- context [Read ?r ?p] => destruct (Read r p) as [[[? ?] [?|]] ?]; [done|]
  | |- context [sectorLoop ?a ?b ?c ?d ?e ?f] =>
      destruct (sectorLoop a b c d e f) as [[? [?|]] ?]; [done|]
  end; done.
Qed.

(** One turn is all the loop takes. *)
Lemma Decode_for_turns t1 t2 file r :
  Decode_for (S t1) file r = Decode_for (S t2) file r.
Proof.
  cbn [Decode_for]. pose proof (Decode_for_body_exits file r) as H.
  by destruct (Decode_for_body file r) as [[f []] r'].
Qed.

(** The [for] statement adds no track, or the one track assembled from
    the bytes read, its records being the result of the sector loop. *)
Lemma Decode_for_tracks turns file r :
  Tracks (Decode_for (S turns) file r).1.1 = Tracks file
  \/ exists m c h n z nm cm hm recs r0 r1 r2,
       r = m :: c :: h :: n :: z :: r0
       /\ Tracks (Decode_for (S turns) file r).1.1 =
         Tracks file ++
         [mkTrack m c h n z (Some nm)
            (if has_cylinder_map h then Some cm else None)
            (if has_head_map h then Some hm else None) recs]
       /\ length nm = byte_len n
       /\ length cm = byte_len n
       /\ length hm = byte_len n
       /\ sectorLoop (byte_len n) 0 z r1 x00 (replicate (byte_len n) None)
          = (recs, None, r2).
Proof.
  cbn [Decode_for]. unfold Decode_for_body.
  destruct r as [|m [|c [|h [|n [|z r6]]]]]; try by left.
  rewrite !readByte_cons.
  destruct (Read r6 (make (byte_len n))) as [[[nm k1] [e|]] r7] eqn:Enm; [by left|].
  apply Read_length in Enm. rewrite length_make in Enm.
  fold (has_cylinder_map h). fold (has_head_map h).
  destruct (has_cylinder_map h) eqn:Ec; destruct (has_head_map h) eqn:Eh;
    repeat match goal with
    | |- context [Read ?r (make (byte_len n))] =>
        let E := fresh "Emap" in
        destruct (Read r (make (byte_len n))) as [[[? ?] [?|]] ?] eqn:E;
        [by left|];
        apply Read_length in E; rewrite length_make in E
    end;
    (destruct (sectorLoop _ _ _ _ _ _) as [[recs [e|]] r10] eqn:EL; [by left|]);
    right; cbn [Tracks app fst].
  - eexists m, c, h, n, z, nm, _, _, recs, r6, _, r10. by rewrite Ec, Eh.
  - eexists m, c, h, n, z, nm, _, nm, recs, r6, _, r10. by rewrite Ec, Eh.
  - eexists m, c, h, n, z, nm, nm, _, recs, r6, _, r10. by rewrite Ec, Eh.
  - eexists m, c, h, n, z, nm, nm, nm, recs, r6, _, r10. by rewrite Ec, Eh.
Qed.

Lemma Decode_tracks r :
  Tracks (Decode r).1.1 = []
  \/ exists m c h n z nm cm hm recs r1 r2,
       Tracks (Decode r).1.1 =
         [mkTrack m c h n z (Some nm)
            (if has_cylinder_map h then Some cm else None)
            (if has_head_map h then Some hm else None) recs]
       /\ length nm = byte_len n
       /\ length cm = byte_len n
       /\ length hm = byte_len n
       /\ sectorLoop (byte_len n) 0 z r1 x00 (replicate (byte_len n) None)
          = (recs, None, r2).
Proof.
  unfold Decode.
  destruct (Read r (make 29)) as [[[header k0] [e|]] r0]; [by left|].
  cbn [File_Header Comment Tracks zeroFile].
  destruct (validateHeader _); [by left|].
  destruct (readStringASCIIEOF r0) as [[comment [e|]] r1]; [by left|].
  destruct (Decode_for_tracks (length r1)
              (mkFile (string_of_bytes header) comment []) r1)
    as [E | (m & c & h & n & z & nm & cm & hm & recs & r6 & r7 & r8 & _ & E & H)].
  - by left.
  - right. by exists m, c, h, n, z, nm, cm, hm, recs, r7, r8.
Qed.

(** The [for] statement on a reader that holds the five bytes of a track
    header, the maps that the head byte announces, and more. *)
Lemma Decode_for_stream turns file m c h n z nm cm hm rest :
  length nm = byte_len n ->
  length cm = (if has_cylinder_map h then byte_len n else 0)%nat ->
  length hm = (if has_head_map h then byte_len n else 0)%nat ->
  rest <> [] ->
  Decode_for (S turns) file
    (m :: c :: h :: n :: z :: nm ++ cm ++ hm ++ rest) =
    let '(recs, err, r) :=
      sectorLoop (byte_len n) 0 z rest x00 (replicate (byte_len n) None) in
    match err with
    | Some err => (file, Some err, r)
    | None =>
        (mkFile (File_Header file) (Comment file)
           (Tracks file ++
              [mkTrack m c h n z (Some nm)
                 (if has_cylinder_map h then Some cm else None)
                 (if has_head_map h then Some hm else None) recs]),
         None, r)
    end.
Proof.
  intros Hnm Hcm Hhm Hrest. cbn [Decode_for]. unfold Decode_for_body.
  rewrite !readByte_cons.
  fold (has_cylinder_map h). fold (has_head_map h).
  rewrite Read_full; [|by rewrite length_make|solve_ne].
  revert Hcm Hhm.
  destruct (has_cylinder_map h), (has_head_map h); intros Hcm Hhm.
  - rewrite Read_full; [|by rewrite length_make|solve_ne].
    rewrite Read_full; [|by rewrite length_make|solve_ne].
    by destruct (sectorLoop _ _ _ _ _ _) as [[? [?|]] ?].
  - apply nil_length_inv in Hhm as ->. cbn [app].
    rewrite Read_full; [|by rewrite length_make|solve_ne].
    by destruct (sectorLoop _ _ _ _ _ _) as [[? [?|]] ?].
  - apply nil_length_inv in Hcm as ->. cbn [app].
    rewrite Read_full; [|by rewrite length_make|solve_ne].
    by destruct (sectorLoop _ _ _ _ _ _) as [[? [?|]] ?].
  - apply nil_length_inv in Hcm as ->. apply nil_length_inv in Hhm as ->.
    by destruct (sectorLoop _ _ _ _ _ _) as [[? [?|]] ?].
Qed.

(** [Decode] on a reader that holds 29 bytes of header and a comment with
    its sentinel. *)
Lemma Decode_stream hdr comment r1 :
  length hdr = 29%nat -> x1a ∉ comment ->
  Decode (hdr ++ comment ++ x1a :: r1) =
    match validateHeader (string_of_bytes hdr) with
    | Some err =>
        (mkFile (string_of_bytes hdr) "" [], Some err, comment ++ x1a :: r1)
    | None =>
        Decode_for (S (length r1))
          (mkFile (string_of_bytes hdr) (string_of_runes comment) []) r1
    end.
Proof.
  intros Hhdr Hc. unfold Decode.
  rewrite Read_full; [|by rewrite length_make|solve_ne].
  cbn [File_Header Comment Tracks zeroFile].
  destruct (validateHeader _); [done|].
  by rewrite readStringASCIIEOF_sentinel.
Qed.

(** [Decode] on an image whose parts have the right lengths: the header
    is validated and the sector loop runs on the sector records. *)
Lemma Decode_image hdr comment m c h n z nm cm hm sectors :
  image_shape hdr comment h n nm cm hm -> sectors <> [] ->
  Decode (image hdr comment m c h n z nm cm hm sectors) =
    match validateHeader (string_of_bytes hdr) with
    | Some err =>
        (mkFile (string_of_bytes hdr) "" [], Some err,
         comment ++ x1a :: m :: c :: h :: n :: z :: nm ++ cm ++ hm ++ sectors)
    | None =>
        let file := mkFile (string_of_bytes hdr) (string_of_runes comment) [] in
        let '(recs, err, r) :=
          sectorLoop (byte_len n) 0 z sectors x00 (replicate (byte_len n) None) in
        match err with
        | Some err => (file, Some err, r)
        | None =>
            (mkFile (string_of_bytes hdr) (string_of_runes comment)
               [mkTrack m c h n z (Some nm)
                  (if has_cylinder_map h then Some cm else None)
                  (if has_head_map h then Some hm else None) recs],
             None, r)
        end
    end.
Proof.
  intros (Hhdr & Hc & Hnm & Hcm & Hhm) Hne. unfold image.
  rewrite Decode_stream by done.
  destruct (validateHeader _); [done|].
  by rewrite Decode_for_stream.
Qed.

(** The sector loop of a track in which slot [j] starts at [rest]: the
    turns before slot [j], then the loop from slot [j] on. *)
Lemma sectorLoop_slot z n j secs rest :
  slot_starts_at z n j secs rest ->
  exists recs k,
    byte_len n = (j + S k)%nat
    /\ length recs = byte_len n
    /\ sectorLoop j 0 z (secs ++ rest) x00 (replicate (byte_len n) None)
       = (recs, None, rest)
    /\ (forall rest', rest' <> [] ->
        sectorLoop (byte_len n) 0 z (secs ++ rest') x00
          (replicate (byte_len n) None)
        = sectorLoop (S k) j z rest' x00 recs).
Proof.
  intros (Hj & Hne & recs & HL).
  exists recs, (byte_len n - S j)%nat.
  split; [lia|]. split.
  { apply sectorLoop_invariant in HL as (-> & _). apply length_replicate. }
  split; [done|].
  intros rest' Hne'.
  replace (byte_len n) with (j + S (byte_len n - S j))%nat at 1 by lia.
  rewrite sectorLoop_add.
  by rewrite (sectorLoop_local _ _ _ _ _ _ _ _ HL Hne rest' Hne').
Qed.


(** X19.  [Decode] returns at most one track, whatever the stream. *)
Lemma Decode_at_most_one_track r : (length (Tracks (Decode r).1.1) <= 1)%nat.
Proof.
  destruct (Decode_tracks r) as [-> | (m & c & h & n & z & nm & cm & hm & recs
    & r1 & r2 & -> & _)]; simpl; lia.
Qed.

(** *** The invariants of a track *)

(** C3.  Every track that [Decode] appends to [Tracks] has a sector
    numbering map of [NumberOfSectors] entries, a cylinder map and a head
    map of that many entries when they are present, that many data
    records, each present data buffer of [SectorSize] bytes, and both
    counts within 0..255. *)
Theorem Decode_track_invariants (r : Reader) (t : Track)
    (Ht : t ∈ Tracks (Decode r).1.1) :
  track_invariant t.
Proof.
  destruct (Decode_tracks r) as [E | (m & c & h & n & z & nm & cm & hm & recs
    & r1 & r2 & E & Hnm & Hcm & Hhm & HL)]; rewrite E in Ht.
  - by apply elem_of_nil in Ht.
  - apply list_elem_of_singleton in Ht as ->. unfold track_invariant. cbn.
    apply sectorLoop_invariant in HL as (Hlen & Hok & _ & _).
    rewrite length_replicate in Hlen.
    repeat split.
    + by exists nm.
    + intros cm'. destruct (has_cylinder_map h); [|done]. by intros [= <-].
    + intros hm'. destruct (has_head_map h); [|done]. by intros [= <-].
    + done.
    + intros buf Hbuf.
      assert (HF : Forall (slot_ok z) recs).
      { apply Hok, Forall_replicate. by intros ? [=]. }
      rewrite Forall_forall in HF. by apply (HF _ Hbuf).
    + apply Byte.to_N_bounded.
    + apply Byte.to_N_bounded.
Qed.

Lemma Decode_track_invariants_witness :
  track_1 ∈ Tracks (Decode stream_1).1.1 /\ track_invariant track_1.
Proof.
  assert (H : track_1 ∈ Tracks (Decode stream_1).1.1).
  { replace (Tracks (Decode stream_1).1.1) with [track_1]
      by (vm_compute; reflexivity).
    apply list_elem_of_here. }
  split; [exact H|].
  exact (Decode_track_invariants stream_1 track_1 H).
Defined.

(** *** The head byte *)

Lemma has_cylinder_map_bit6 h : has_cylinder_map h = N.testbit (Byte.to_N h) 6.
Proof. destruct h; reflexivity. Qed.

Lemma has_head_map_bit7 h : has_head_map h = N.testbit (Byte.to_N h) 7.
Proof. destruct h; reflexivity. Qed.

(** C10.  The [Head] of a decoded track is the head byte of the stream as
    it was read, flag bits 6 and 7 included: these bits of [Head] are set
    exactly when the cylinder map and the head map are present. *)
Theorem Decode_head_raw (hdr comment : list byte) (m c h : byte)
    (rest : list byte) (t : Track)
    (Hhdr : length hdr = 29%nat) (Hcomment : x1a ∉ comment)
    (Ht : t ∈ Tracks (Decode (hdr ++ comment ++ x1a :: m :: c :: h :: rest)).1.1) :
  Head t = h
  /\ (N.testbit (Byte.to_N (Head t)) 6 = true <-> SectorCylinderMap t <> None)
  /\ (N.testbit (Byte.to_N (Head t)) 7 = true <-> SectorHeadMap t <> None).
Proof.
  rewrite Decode_stream in Ht by done.
  destruct (validateHeader _); [by apply elem_of_nil in Ht|].
  destruct (Decode_for_tracks (length (m :: c :: h :: rest))
              (mkFile (string_of_bytes hdr) (string_of_runes comment) [])
              (m :: c :: h :: rest))
    as [E | (m' & c' & h' & n & z & nm & cm & hm & recs & r0 & r1 & r2
             & Er & E & _)]; rewrite E in Ht.
  - by apply elem_of_nil in Ht.
  - injection Er as <- <- <- _.
    apply list_elem_of_singleton in Ht as ->. cbn.
    rewrite <- has_cylinder_map_bit6, <- has_head_map_bit7.
    repeat split; try by destruct (has_cylinder_map h).
    all: by destruct (has_head_map h).
Qed.

Lemma Decode_head_raw_witness :
  track_1 ∈ Tracks (Decode stream_1).1.1
  /\ Head track_1 = xc0
  /\ (N.testbit (Byte.to_N (Head track_1)) 6 = true
      <-> SectorCylinderMap track_1 <> None)
  /\ (N.testbit (Byte.to_N (Head track_1)) 7 = true
      <-> SectorHeadMap track_1 <> None).
Proof.
  assert (H : track_1 ∈ Tracks (Decode stream_1).1.1).
  { replace (Tracks (Decode stream_1).1.1) with [track_1]
      by (vm_compute; reflexivity).
    apply list_elem_of_here. }
  split; [exact H|].
  refine (Decode_head_raw (bytes "IMD 1.18: 15/03/2021 10:30:00")
            (bytes "hi") x05 x00 xc0
            [x03; x04;  x01; x02; x03;  x00; x00; x00;  x01; x01; x01;
             x01; xaa; xbb; xcc; xdd;  x00;  x02; xee;  xff]
            track_1 _ _ H).
  - reflexivity.
  - apply (bool_decide_unpack _). vm_compute. exact I.
Defined.

(** *** The sector records *)

(** The turn of a compressed record writes slot [i]; the later turns
    leave it alone. *)
Lemma sectorLoop_compressed_slot z turns i d v rest record recs recs' err r' :
  is_compressed d = true -> (i < length recs)%nat ->
  sectorLoop (S turns) i z (d :: v :: rest) record recs = (recs', err, r') ->
  recs' !! i = Some (Some (replicate (byte_len z) v)).
Proof.
  intros Hd Hi. rewrite sectorLoop_compressed by done.
  intros H. apply sectorLoop_invariant in H as (_ & _ & H & _).
  rewrite H by lia. by apply list_lookup_insert_eq.
Qed.

(** C7.  In a track with sector size [z], a slot whose record is the
    discriminant 2 followed by a fill byte [v] decodes to a present buffer
    of [z] bytes, each equal to [v]. *)
Theorem Decode_compressed_sector (hdr comment : list byte) (m c h n z : byte)
    (nm cm hm secs post : list byte) (j : nat) (v : byte) (t : Track)
    (Hshape : image_shape hdr comment h n nm cm hm)
    (Hslot : slot_starts_at z n j secs (x02 :: v :: post))
    (Ht : t ∈ Tracks (Decode (image hdr comment m c h n z nm cm hm
                                (secs ++ x02 :: v :: post))).1.1) :
  SectorDataRecords t !! j = Some (Some (replicate (byte_len z) v))
  /\ SectorSize t = z.
Proof.
  rewrite Decode_image in Ht by (try done; solve_ne).
  destruct (validateHeader _); [by apply elem_of_nil in Ht|].
  destruct (sectorLoop_slot _ _ _ _ _ Hslot) as (recs & k & Hn & Hlen & HR & HL).
  rewrite HL in Ht by done.
  destruct (sectorLoop (S k) _ _ _ _ _) as [[recs' [e|]] r'] eqn:E;
    [by apply elem_of_nil in Ht|].
  apply list_elem_of_singleton in Ht as ->. cbn. split; [|done].
  eapply sectorLoop_compressed_slot; [| |exact E]; [done|lia].
Qed.

Ltac elem_of_one H :=
  first [ by apply elem_of_nil in H | apply list_elem_of_singleton in H as -> ].

Lemma group_disjoint d : is_compressed d = true -> is_verbatim d = false.
Proof. by destruct d. Qed.

(** The turn of a record depends on the group of its discriminant only. *)
Lemma sectorLoop_same_group z turns i d d' r record recs :
  same_group d d' = true ->
  sectorLoop (S turns) i z (d :: r) record recs
  = sectorLoop (S turns) i z (d' :: r) record recs.
Proof.
  unfold same_group. intros H. rewrite !sectorLoop_turn.
  apply orb_true_iff in H as [H|H]; apply andb_true_iff in H as [H1 H2].
  - rewrite H1, H2.
    destruct (Read r (make (byte_len z))) as [[[buf k] [e|]] r1]; [done|].
    apply sectorLoop_record.
  - rewrite (group_disjoint _ H1), (group_disjoint _ H2), H1, H2.
    destruct r as [|v r]; [done|]. apply sectorLoop_record.
Qed.

(** C8.  Replacing the discriminant of a sector record by another one of
    its group, 1, 3, 5, 7 or 2, 4, 6, 8, changes neither the file nor the
    error that [Decode] returns. *)
Theorem Decode_discriminant_group (hdr comment : list byte) (m c h n z : byte)
    (nm cm hm secs post : list byte) (j : nat) (d d' : byte)
    (Hshape : image_shape hdr comment h n nm cm hm)
    (Hslot : slot_starts_at z n j secs (d :: post))
    (Hgroup : same_group d d' = true) :
  (Decode (image hdr comment m c h n z nm cm hm (secs ++ d :: post))).1
  = (Decode (image hdr comment m c h n z nm cm hm (secs ++ d' :: post))).1.
Proof.
  rewrite !Decode_image by (try done; solve_ne).
  destruct (validateHeader _); [done|].
  destruct (sectorLoop_slot _ _ _ _ _ Hslot) as (recs & k & Hn & Hlen & HR & HL).
  rewrite !HL by done.
  by rewrite (sectorLoop_same_group _ _ _ d d').
Qed.

(** The turns of the loop write the slots from [i] to [i + turns - 1]
    only. *)
Lemma sectorLoop_untouched z : forall turns i r record recs recs' err r',
  sectorLoop turns i z r record recs = (recs', err, r') ->
  forall j, (i + turns <= j)%nat -> recs' !! j = recs !! j.
Proof.
  induction turns as [|turns IH]; intros i r record recs recs' err r' H j Hj.
  - by injection H as <- _ _.
  - rewrite sectorLoop_turn in H.
    destruct r as [|d r]; [by injection H as <- _ _|].
    destruct (is_verbatim d).
    { destruct (Read r (make (byte_len z))) as [[[buf k] [e|]] r1].
      - injection H as <- _ _. apply list_lookup_insert_ne. lia.
      - rewrite (IH _ _ _ _ _ _ _ H) by lia. apply list_lookup_insert_ne. lia. }
    destruct (is_compressed d).
    { destruct r as [|v r]; [by injection H as <- _ _|].
      rewrite (IH _ _ _ _ _ _ _ H) by lia. apply list_lookup_insert_ne. lia. }
    apply (IH _ _ _ _ _ _ _ H). lia.
Qed.

Lemma unrecognized_other d :
  8 < Byte.to_N d -> is_verbatim d = false /\ is_compressed d = false.
Proof. destruct d; intros H; first [done | by vm_compute in H]. Qed.

(** C2, as the code has it.  A sector record whose discriminant is
    outside 0..8 is decoded as the record of an unavailable sector is:
    [Decode] returns the file and the error that it returns with the
    discriminant 0 in that place, and in a track that it returns the
    payload of that slot is absent. *)
Theorem Decode_unrecognized_discriminant (hdr comment : list byte)
    (m c h n z : byte) (nm cm hm secs post : list byte) (j : nat) (d : byte)
    (Hshape : image_shape hdr comment h n nm cm hm)
    (Hslot : slot_starts_at z n j secs (d :: post))
    (Hd : 8 < Byte.to_N d) :
  (Decode (image hdr comment m c h n z nm cm hm (secs ++ d :: post))).1
  = (Decode (image hdr comment m c h n z nm cm hm (secs ++ x00 :: post))).1
  /\ forall t,
       t ∈ Tracks (Decode (image hdr comment m c h n z nm cm hm
                             (secs ++ d :: post))).1.1 ->
       SectorDataRecords t !! j = Some None.
Proof.
  rewrite !Decode_image by (try done; solve_ne).
  destruct (validateHeader _); [split; [done|intros t Ht; elem_of_one Ht]|].
  destruct (sectorLoop_slot _ _ _ _ _ Hslot) as (recs & k & Hn & Hlen & HR & HL).
  rewrite !HL by done.
  destruct (unrecognized_other d Hd) as [Hv Hc].
  rewrite (sectorLoop_other _ _ _ d) by done.
  rewrite (sectorLoop_other _ _ _ x00) by done.
  rewrite (sectorLoop_record _ _ _ _ d x00).
  split; [done|].
  destruct (sectorLoop k _ _ _ _ _) as [[recs' [e|]] r'] eqn:E;
    intros t Ht; elem_of_one Ht.
  cbn. apply sectorLoop_invariant in E as (_ & _ & E & _).
  rewrite E by lia.
  rewrite (sectorLoop_untouched _ _ _ _ _ _ _ _ _ HR) by lia.
  apply lookup_replicate_2. lia.
Qed.

Ltac shape_tac :=
  repeat split; try reflexivity; apply (bool_decide_unpack _); vm_compute; exact I.

Ltac slot_tac :=
  split; [vm_compute; lia|];
  split; [discriminate|];
  eexists; vm_compute; reflexivity.

Ltac track_tac :=
  match goal with
  | |- ?t ∈ Tracks ?f =>
      replace (Tracks f) with [t] by (vm_compute; reflexivity);
      apply list_elem_of_here
  end.

Lemma Decode_compressed_sector_witness :
  image_shape hdr_1 comment_1 xc0 x03 [x01; x02; x03] [x00; x00; x00]
    [x01; x01; x01]
  /\ slot_starts_at x04 x03 2 [x01; xaa; xbb; xcc; xdd; x00] [x02; xee; xff]
  /\ track_1 ∈ Tracks (Decode stream_1).1.1
  /\ SectorDataRecords track_1 !! 2%nat = Some (Some (replicate (byte_len x04) xee))
  /\ SectorSize track_1 = x04.
Proof.
  assert (H1 : image_shape hdr_1 comment_1 xc0 x03 [x01; x02; x03]
                 [x00; x00; x00] [x01; x01; x01]) by shape_tac.
  assert (H2 : slot_starts_at x04 x03 2 [x01; xaa; xbb; xcc; xdd; x00]
                 [x02; xee; xff]) by slot_tac.
  assert (H3 : track_1 ∈ Tracks (Decode stream_1).1.1) by track_tac.
  split; [exact H1|]. split; [exact H2|]. split; [exact H3|].
  exact (Decode_compressed_sector hdr_1 comment_1 x05 x00 xc0 x03 x04
           [x01; x02; x03] [x00; x00; x00] [x01; x01; x01]
           [x01; xaa; xbb; xcc; xdd; x00] [xff] 2 xee track_1 H1 H2 H3).
Defined.

Lemma Decode_discriminant_group_witness :
  image_shape hdr_1 comment_1 xc0 x03 [x01; x02; x03] [x00; x00; x00]
    [x01; x01; x01]
  /\ slot_starts_at x04 x03 2 [x01; xaa; xbb; xcc; xdd; x00] [x02; xee; xff]
  /\ same_group x02 x08 = true
  /\ (Decode stream_1).1
     = (Decode (image hdr_1 comment_1 x05 x00 xc0 x03 x04
                  [x01; x02; x03] [x00; x00; x00] [x01; x01; x01]
                  ([x01; xaa; xbb; xcc; xdd; x00] ++ x08 :: [xee; xff]))).1.
Proof.
  assert (H1 : image_shape hdr_1 comment_1 xc0 x03 [x01; x02; x03]
                 [x00; x00; x00] [x01; x01; x01]) by shape_tac.
  assert (H2 : slot_starts_at x04 x03 2 [x01; xaa; xbb; xcc; xdd; x00]
                 [x02; xee; xff]) by slot_tac.
  split; [exact H1|]. split; [exact H2|]. split; [reflexivity|].
  exact (Decode_discriminant_group hdr_1 comment_1 x05 x00 xc0 x03 x04
           [x01; x02; x03] [x00; x00; x00] [x01; x01; x01]
           [x01; xaa; xbb; xcc; xdd; x00] [xee; xff] 2 x02 x08 H1 H2 eq_refl).
Defined.

Lemma Decode_unrecognized_discriminant_witness :
  image_shape hdr_1 comment_1 xc0 x03 [x01; x02; x03] [x00; x00; x00]
    [x01; x01; x01]
  /\ slot_starts_at x04 x03 1 [x01; xaa; xbb; xcc; xdd] [x09; x02; xee; xff]
  /\ 8 < Byte.to_N x09
  /\ (Decode stream_unrecognized).1 = (Decode stream_1).1
  /\ forall t, t ∈ Tracks (Decode stream_unrecognized).1.1 ->
       SectorDataRecords t !! 1%nat = Some None.
Proof.
  assert (H1 : image_shape hdr_1 comment_1 xc0 x03 [x01; x02; x03]
                 [x00; x00; x00] [x01; x01; x01]) by shape_tac.
  assert (H2 : slot_starts_at x04 x03 1 [x01; xaa; xbb; xcc; xdd]
                 [x09; x02; xee; xff]) by slot_tac.
  assert (H3 : 8 < Byte.to_N x09) by reflexivity.
  split; [exact H1|]. split; [exact H2|]. split; [exact H3|].
  exact (Decode_unrecognized_discriminant hdr_1 comment_1 x05 x00 xc0 x03 x04
           [x01; x02; x03] [x00; x00; x00] [x01; x01; x01]
           [x01; xaa; xbb; xcc; xdd] [x02; xee; xff] 1 x09 H1 H2 H3).
Defined.

(** *** Sample images, decoded *)

Example Decode_stream_1 :
  Decode stream_1
  = (mkFile "IMD 1.18: 15/03/2021 10:30:00" "hi" [track_1], None, [xff]).
Proof. vm_compute. reflexivity. Qed.

(** C2, at an image whose second sector record has the discriminant 9:
    [Decode] returns no error, and the track with that sector absent. *)
Example Decode_stream_unrecognized :
  8 < Byte.to_N x09
  /\ Decode stream_unrecognized
     = (mkFile "IMD 1.18: 15/03/2021 10:30:00" "hi" [track_1], None, [xff]).
Proof. split; vm_compute; reflexivity. Qed.

(** C1, at an image with two track records.  Each of the two records
    alone decodes to its track; on the image that holds both, [Decode]
    returns the first track only, without error, and leaves the bytes of
    the second unread: the loop over the tracks ends after one turn. *)
Example Decode_two_tracks :
  Decode (hdr_1 ++ comment_1 ++ [x1a] ++ track_bytes_a)
  = (mkFile "IMD 1.18: 15/03/2021 10:30:00" "hi" [track_a], None, [])
  /\ Decode (hdr_1 ++ comment_1 ++ [x1a] ++ track_bytes_b)
     = (mkFile "IMD 1.18: 15/03/2021 10:30:00" "hi" [track_b], None, [])
  /\ Decode stream_two_tracks
     = (mkFile "IMD 1.18: 15/03/2021 10:30:00" "hi" [track_a], None,
        track_bytes_b).
Proof. repeat split; vm_compute; reflexivity. Qed.

(** C5, at an image that ends two bytes into the four bytes of payload of
    its only sector.  [Decode] returns no error, and a track whose payload
    is the two bytes read followed by two zero bytes: [Read] reports no
    error for a buffer that it fills in part, and its count is dropped. *)
Example Decode_short_payload :
  Decode stream_short_payload
  = (mkFile "IMD 1.18: 15/03/2021 10:30:00" "hi"
       [mkTrack x05 x00 x00 x01 x04 (Some [x01]) None None
          [Some [xaa; xbb; x00; x00]]],
     None, []).
Proof. vm_compute. reflexivity. Qed.

(** X18.  The end of the stream where a track would begin, right after
    the sentinel of the comment, ends [Decode] without error: it returns
    the file with the header and the comment and without tracks. *)
Lemma Decode_clean_eof hdr comment :
  length hdr = 29%nat -> validateHeader (string_of_bytes hdr) = None ->
  x1a ∉ comment ->
  Decode (hdr ++ comment ++ [x1a])
  = (mkFile (string_of_bytes hdr) (string_of_runes comment) [], None, []).
Proof.
  intros Hhdr Hv Hc. rewrite Decode_stream by done. by rewrite Hv.
Qed.

(** ** The header *)

(** *** Strings *)

Lemma string_length_app (a b : string) :
  String.length (a ++ b) = (String.length a + String.length b)%nat.
Proof. induction a; simpl; congruence. Qed.

(** A string with a prefix is the prefix followed by the rest. *)
Lemma HasPrefix_inv (s p : string) :
  HasPrefix s p = true -> s = (p ++ sdrop (String.length p) s)%string.
Proof.
  unfold HasPrefix. revert s. induction p as [|a p IH]; intros s H.
  - by destruct s.
  - destruct s as [|b s]; [done|]. simpl in H.
    destruct (ascii_dec a b) as [->|]; [|done].
    simpl. f_equal. by apply IH.
Qed.

(** Where [Index] finds [sep], there it is. *)
Lemma Index_inv (s sep : string) m :
  Index s sep = Some m ->
  s = (stake m s ++ sep ++ sdrop (m + String.length sep) s)%string
  /\ (m + String.length sep <= String.length s)%nat.
Proof.
  revert m. induction s as [|c s IH]; intros m H.
  - cbn [Index] in H. destruct (String.prefix sep "") eqn:E; [|done].
    injection H as <-. destruct sep; [|discriminate E].
    split; [reflexivity|cbn; lia].
  - cbn [Index] in H. destruct (String.prefix sep (String c s)) eqn:E.
    + injection H as <-. apply HasPrefix_inv in E.
      cbn [stake Nat.add String.append]. split; [done|].
      apply (f_equal String.length) in E.
      rewrite string_length_app in E. lia.
    + destruct (Index s sep) as [m'|] eqn:E'; [|done].
      injection H as <-. destruct (IH m' eq_refl) as [H1 H2].
      cbn [stake sdrop Nat.add String.append String.length]. split; [|lia].
      by rewrite <- H1.
Qed.

Lemma genSplit_loop_nonempty n (s sep : string) k :
  genSplit_loop n s sep k <> [].
Proof. destruct n; cbn [genSplit_loop]; [done|]. by destruct (Index s sep). Qed.

(** A split into two parts cuts the string at a separator. *)
Lemma genSplit_loop_two n (s sep a b : string) :
  genSplit_loop n s sep 0 = [a; b] -> s = (a ++ sep ++ b)%string.
Proof.
  destruct n as [|n]; cbn [genSplit_loop]; [intros H; inversion H|].
  destruct (Index s sep) as [m|] eqn:E; [|intros H; inversion H].
  intros H. injection H as <- H.
  assert (b = sdrop (m + String.length sep) s) as ->.
  { destruct n as [|n]; cbn [genSplit_loop] in H; [by injection H|].
    destruct (Index (sdrop _ s) sep); [|by injection H].
    injection H as _ H. by apply genSplit_loop_nonempty in H. }
  rewrite Nat.add_0_r. by apply Index_inv.
Qed.

Lemma SplitN_two (s sep a b : string) n :
  SplitN s sep n = [a; b] -> s = (a ++ sep ++ b)%string.
Proof.
  unfold SplitN, genSplit. destruct (n =? 0)%Z; [done|].
  apply genSplit_loop_two.
Qed.

Lemma Split_two (s sep a b : string) :
  Split s sep = [a; b] -> s = (a ++ sep ++ b)%string.
Proof. unfold Split, genSplit. cbn [Z.eqb]. apply genSplit_loop_two. Qed.

(** *** The loops that run by turns *)

Lemma sdrop_length n (s : string) :
  String.length (sdrop n s) = (String.length s - n)%nat.
Proof.
  revert s. induction n as [|n IH]; intros [|c s]; cbn; try done.
Qed.

(** The turns given to [Count_loop] are never used up: with any number
    of turns from the length of the string on, the count is the same. *)
Lemma Count_loop_fuel (sep : string) : sep <> "" ->
  forall t1 t2 s n,
    (String.length s <= t1)%nat -> (String.length s <= t2)%nat ->
    Count_loop t1 s sep n = Count_loop t2 s sep n.
Proof.
  intros Hsep.
  assert (Hlen : (0 < String.length sep)%nat) by (destruct sep; [done|cbn; lia]).
  assert (Hnil : forall t n, Count_loop t "" sep n = n).
  { intros [|t] n; [done|]. cbn [Count_loop Index].
    destruct sep; [done|reflexivity]. }
  induction t1 as [|t1 IH]; intros t2 s n H1 H2.
  - destruct s; [|cbn in H1; lia]. by rewrite Hnil.
  - destruct t2 as [|t2].
    + destruct s; [|cbn in H2; lia]. by rewrite !Hnil.
    + cbn [Count_loop]. destruct (Index s sep) as [i|] eqn:Ei; [|done].
      apply Index_inv in Ei as [_ Hi].
      apply IH; rewrite sdrop_length; lia.
Qed.

Lemma cutspace_length s : (String.length (cutspace s) <= String.length s)%nat.
Proof.
  induction s as [|c s IH]; [done|].
  cbn [cutspace].
  destruct (Ascii.eqb c " ") eqn:E.
  - apply Ascii.eqb_eq in E as ->. cbn. lia.
  - destruct c as [[] [] [] [] [] [] [] []];
      first [done | discriminate E | cbn; lia].
Qed.

(** The turns given to [skip_loop] are never used up. *)
Lemma skip_loop_fuel : forall t1 t2 value prefix,
  (String.length prefix <= t1)%nat -> (String.length prefix <= t2)%nat ->
  skip_loop t1 value prefix = skip_loop t2 value prefix.
Proof.
  induction t1 as [|t1 IH]; intros t2 value prefix H1 H2.
  - destruct prefix; [|cbn in H1; lia]. by destruct t2.
  - destruct prefix as [|p0 prefix']; [by destruct t2|].
    destruct t2 as [|t2]; [cbn in H2; lia|].
    cbn [String.length skip_loop]. cbn [String.length] in H1, H2.
    destruct (Ascii.eqb p0 " ") eqn:E.
    + destruct ((0 <? String.length value)%nat && negb (char_at_is value 0 " "));
        [done|].
      apply Ascii.eqb_eq in E as ->.
      change (cutspace (String " " prefix')) with (cutspace prefix').
      pose proof (cutspace_length prefix').
      apply IH; lia.
    + destruct value as [|v0 value']; [done|].
      destruct (Ascii.eqb v0 p0); [|done]. apply IH; lia.
Qed.

(** *** [time.Parse] on the canonical texts *)

Lemma digit_val_range c : ascii_isDigit c = true -> (0 <= digit_val c <= 9)%Z.
Proof.
  unfold ascii_isDigit, digit_val. intros H.
  apply andb_true_iff in H as [H1 H2].
  apply N.leb_le in H1, H2. lia.
Qed.

Lemma getnum_two c0 c1 s fixed :
  ascii_isDigit c0 = true -> ascii_isDigit c1 = true ->
  getnum (String c0 (String c1 s)) fixed = Some (num2 c0 c1, s).
Proof. intros H0 H1. unfold getnum, isDigit. cbn [String.get]. by rewrite H0, H1. Qed.

Lemma parse_chunk_day t d0 d1 s :
  ascii_isDigit d0 = true -> ascii_isDigit d1 = true ->
  parse_chunk stdZeroDay t (String d0 (String d1 s))
  = Some (mkTime (year t) (month t) (num2 d0 d1) (hour t) (minute t) (sec t)
            (nsec t), s).
Proof. intros H0 H1. cbn [parse_chunk]. by rewrite getnum_two. Qed.

Lemma parse_chunk_month t m0 m1 s :
  ascii_isDigit m0 = true -> ascii_isDigit m1 = true ->
  (1 <= num2 m0 m1 <= 12)%Z ->
  parse_chunk stdZeroMonth t (String m0 (String m1 s))
  = Some (mkTime (year t) (num2 m0 m1) (day t) (hour t) (minute t) (sec t)
            (nsec t), s).
Proof.
  intros H0 H1 Hr. cbn [parse_chunk]. rewrite getnum_two by done.
  destruct (Z.leb_spec (num2 m0 m1) 0); [lia|].
  destruct (Z.ltb_spec 12 (num2 m0 m1)); [lia|]. done.
Qed.

Lemma parse_chunk_year t y0 y1 y2 y3 s :
  ascii_isDigit y0 = true -> ascii_isDigit y1 = true ->
  ascii_isDigit y2 = true -> ascii_isDigit y3 = true ->
  parse_chunk stdLongYear t (String y0 (String y1 (String y2 (String y3 s))))
  = Some (mkTime (num4 y0 y1 y2 y3) (month t) (day t) (hour t) (minute t) (sec t)
            (nsec t), s).
Proof.
  intros H0 H1 H2 H3. cbn [parse_chunk].
  unfold isDigit. cbn [String.get String.length Nat.ltb Nat.leb orb negb].
  rewrite H0. cbn [negb sslice Nat.sub sdrop stake atoi_digits].
  rewrite H0, H1, H2, H3. unfold num4.
  repeat f_equal.
Qed.

Lemma num2_nonneg c0 c1 :
  ascii_isDigit c0 = true -> ascii_isDigit c1 = true -> (0 <= num2 c0 c1)%Z.
Proof.
  intros H0%digit_val_range H1%digit_val_range. unfold num2. lia.
Qed.

Lemma parse_chunk_hour t h0 h1 s :
  ascii_isDigit h0 = true -> ascii_isDigit h1 = true ->
  (num2 h0 h1 < 24)%Z ->
  parse_chunk stdHour t (String h0 (String h1 s))
  = Some (mkTime (year t) (month t) (day t) (num2 h0 h1) (minute t) (sec t)
            (nsec t), s).
Proof.
  intros H0 H1 Hr. cbn [parse_chunk]. rewrite getnum_two by done.
  pose proof (num2_nonneg _ _ H0 H1).
  destruct (Z.ltb_spec (num2 h0 h1) 0); [lia|].
  destruct (Z.leb_spec 24 (num2 h0 h1)); [lia|]. done.
Qed.

Lemma parse_chunk_minute t m0 m1 s :
  ascii_isDigit m0 = true -> ascii_isDigit m1 = true ->
  (num2 m0 m1 < 60)%Z ->
  parse_chunk stdZeroMinute t (String m0 (String m1 s))
  = Some (mkTime (year t) (month t) (day t) (hour t) (num2 m0 m1) (sec t)
            (nsec t), s).
Proof.
  intros H0 H1 Hr. cbn [parse_chunk]. rewrite getnum_two by done.
  pose proof (num2_nonneg _ _ H0 H1).
  destruct (Z.ltb_spec (num2 m0 m1) 0); [lia|].
  destruct (Z.leb_spec 60 (num2 m0 m1)); [lia|]. done.
Qed.

Lemma parse_chunk_second t s0 s1 :
  ascii_isDigit s0 = true -> ascii_isDigit s1 = true ->
  (num2 s0 s1 < 60)%Z ->
  parse_chunk stdZeroSecond t (String s0 (String s1 ""))
  = Some (mkTime (year t) (month t) (day t) (hour t) (minute t) (num2 s0 s1)
            (nsec t), "").
Proof.
  intros H0 H1 Hr. cbn [parse_chunk]. rewrite getnum_two by done.
  pose proof (num2_nonneg _ _ H0 H1).
  destruct (Z.ltb_spec (num2 s0 s1) 0); [lia|].
  destruct (Z.leb_spec 60 (num2 s0 s1)); [lia|]. done.
Qed.

Lemma parse_chunk_slash t s :
  parse_chunk (lit "/") t (String "/" s) = Some (t, s).
Proof. reflexivity. Qed.

Lemma parse_chunk_colon t s :
  parse_chunk (lit ":") t (String ":" s) = Some (t, s).
Proof. reflexivity. Qed.

Lemma parse_chunk_space t c s :
  ascii_isDigit c = true ->
  parse_chunk (lit " ") t (String " " (String c s)) = Some (t, String c s).
Proof.
  intros H. destruct c as [[] [] [] [] [] [] [] []];
    first [reflexivity | discriminate H].
Qed.

(** The three layouts on the canonical texts. *)
Lemma Parse_date d0 d1 m0 m1 y0 y1 y2 y3 :
  valid_date d0 d1 m0 m1 y0 y1 y2 y3 ->
  Parse layout_date (date_text d0 d1 m0 m1 y0 y1 y2 y3)
  = (mkTime (num4 y0 y1 y2 y3) (num2 m0 m1) (num2 d0 d1) 0 0 0 0, None).
Proof.
  intros (Hd0 & Hd1 & Hm0 & Hm1 & Hy0 & Hy1 & Hy2 & Hy3 & Hm & Hd).
  unfold Parse, layout_date, date_text. cbn [parse_chunks].
  rewrite parse_chunk_day, parse_chunk_slash by done.
  rewrite parse_chunk_month, parse_chunk_slash by done.
  rewrite parse_chunk_year by done.
  cbn [String.length Nat.eqb negb year month day hour minute sec nsec].
  destruct (Z.ltb_spec (num2 m0 m1) 0); [lia|].
  destruct (Z.ltb_spec (num2 d0 d1) 0); [lia|].
  destruct (Z.ltb_spec (num2 d0 d1) 1); [lia|].
  destruct (Z.ltb_spec (daysIn (num2 m0 m1) (num4 y0 y1 y2 y3)) (num2 d0 d1));
    [lia|].
  done.
Qed.

Lemma Parse_time h0 h1 mi0 mi1 s0 s1 :
  valid_time h0 h1 mi0 mi1 s0 s1 ->
  Parse layout_time (time_text h0 h1 mi0 mi1 s0 s1)
  = (mkTime 0 1 1 (num2 h0 h1) (num2 mi0 mi1) (num2 s0 s1) 0, None).
Proof.
  intros (Hh0 & Hh1 & Hm0 & Hm1 & Hs0 & Hs1 & Hh & Hm & Hs).
  unfold Parse, layout_time, time_text. cbn [parse_chunks].
  rewrite parse_chunk_hour, parse_chunk_colon by done.
  rewrite parse_chunk_minute, parse_chunk_colon by done.
  rewrite parse_chunk_second by done.
  reflexivity.
Qed.

Lemma Parse_datetime d0 d1 m0 m1 y0 y1 y2 y3 h0 h1 mi0 mi1 s0 s1 :
  valid_date d0 d1 m0 m1 y0 y1 y2 y3 ->
  valid_time h0 h1 mi0 mi1 s0 s1 ->
  Parse layout_datetime
    (date_text d0 d1 m0 m1 y0 y1 y2 y3 ++ " " ++ time_text h0 h1 mi0 mi1 s0 s1)
  = (mkTime (num4 y0 y1 y2 y3) (num2 m0 m1) (num2 d0 d1)
       (num2 h0 h1) (num2 mi0 mi1) (num2 s0 s1) 0, None).
Proof.
  intros (Hd0 & Hd1 & Hm0 & Hm1 & Hy0 & Hy1 & Hy2 & Hy3 & Hm & Hd).
  intros (Hh0 & Hh1 & Hi0 & Hi1 & Hs0 & Hs1 & Hh & Hi & Hs).
  unfold Parse, layout_datetime, date_text, time_text.
  cbn [parse_chunks String.append].
  rewrite parse_chunk_day, parse_chunk_slash by done.
  rewrite parse_chunk_month, parse_chunk_slash by done.
  rewrite parse_chunk_year, parse_chunk_space by done.
  rewrite parse_chunk_hour, parse_chunk_colon by done.
  rewrite parse_chunk_minute, parse_chunk_colon by done.
  rewrite parse_chunk_second by done.
  cbn [String.length Nat.eqb negb year month day hour minute sec nsec].
  destruct (Z.ltb_spec (num2 m0 m1) 0); [lia|].
  destruct (Z.ltb_spec (num2 d0 d1) 0); [lia|].
  destruct (Z.ltb_spec (num2 d0 d1) 1); [lia|].
  destruct (Z.ltb_spec (daysIn (num2 m0 m1) (num4 y0 y1 y2 y3)) (num2 d0 d1));
    [lia|].
  done.
Qed.

(** *** [time.Parse] accepts the canonical texts only *)

Lemma getnum_fixed_eq c0 c1 s :
  getnum (String c0 (String c1 s)) true =
    if ascii_isDigit c0 && ascii_isDigit c1 then Some (num2 c0 c1, s) else None.
Proof.
  unfold getnum, isDigit. cbn [String.get].
  by destruct (ascii_isDigit c0), (ascii_isDigit c1).
Qed.

Lemma getnum_free_eq c0 c1 s :
  getnum (String c0 (String c1 s)) false =
    if ascii_isDigit c0 then
      if ascii_isDigit c1 then Some (num2 c0 c1, s)
      else Some (digit_val c0, String c1 s)
    else None.
Proof.
  unfold getnum, isDigit. cbn [String.get].
  by destruct (ascii_isDigit c0), (ascii_isDigit c1).
Qed.

Lemma parse_chunk_day_eq t c0 c1 s :
  parse_chunk stdZeroDay t (String c0 (String c1 s)) =
    if ascii_isDigit c0 && ascii_isDigit c1 then
      Some (mkTime (year t) (month t) (num2 c0 c1) (hour t) (minute t) (sec t)
              (nsec t), s)
    else None.
Proof.
  cbn [parse_chunk]. rewrite getnum_fixed_eq.
  by destruct (ascii_isDigit c0 && ascii_isDigit c1).
Qed.

Lemma parse_chunk_month_eq t c0 c1 s :
  parse_chunk stdZeroMonth t (String c0 (String c1 s)) =
    if ascii_isDigit c0 && ascii_isDigit c1 then
      if ((num2 c0 c1 <=? 0) || (12 <? num2 c0 c1))%Z then None
      else Some (mkTime (year t) (num2 c0 c1) (day t) (hour t) (minute t)
                   (sec t) (nsec t), s)
    else None.
Proof.
  cbn [parse_chunk]. rewrite getnum_fixed_eq.
  by destruct (ascii_isDigit c0 && ascii_isDigit c1).
Qed.

Lemma parse_chunk_year_eq t c0 c1 c2 c3 s :
  parse_chunk stdLongYear t (String c0 (String c1 (String c2 (String c3 s)))) =
    if ascii_isDigit c0 && ascii_isDigit c1 && ascii_isDigit c2
       && ascii_isDigit c3
    then Some (mkTime (num4 c0 c1 c2 c3) (month t) (day t) (hour t) (minute t)
                 (sec t) (nsec t), s)
    else None.
Proof.
  cbn [parse_chunk].
  unfold isDigit. cbn [String.get String.length Nat.ltb Nat.leb orb negb].
  destruct (ascii_isDigit c0) eqn:E0; [|done].
  cbn [negb sslice Nat.sub sdrop stake atoi_digits andb].
  rewrite E0.
  destruct (ascii_isDigit c1); [|done].
  destruct (ascii_isDigit c2); [|done].
  destruct (ascii_isDigit c3); [|done].
  unfold num4. repeat f_equal.
Qed.

Lemma parse_chunk_hour_eq t c0 c1 s :
  parse_chunk stdHour t (String c0 (String c1 s)) =
    if ascii_isDigit c0 then
      if ascii_isDigit c1 then
        if ((num2 c0 c1 <? 0) || (24 <=? num2 c0 c1))%Z then None
        else Some (mkTime (year t) (month t) (day t) (num2 c0 c1) (minute t)
                     (sec t) (nsec t), s)
      else
        if ((digit_val c0 <? 0) || (24 <=? digit_val c0))%Z then None
        else Some (mkTime (year t) (month t) (day t) (digit_val c0) (minute t)
                     (sec t) (nsec t), String c1 s)
    else None.
Proof.
  cbn [parse_chunk]. rewrite getnum_free_eq.
  by destruct (ascii_isDigit c0), (ascii_isDigit c1).
Qed.

Lemma parse_chunk_minute_eq t c0 c1 s :
  parse_chunk stdZeroMinute t (String c0 (String c1 s)) =
    if ascii_isDigit c0 && ascii_isDigit c1 then
      if ((num2 c0 c1 <? 0) || (60 <=? num2 c0 c1))%Z then None
      else Some (mkTime (year t) (month t) (day t) (hour t) (num2 c0 c1)
                   (sec t) (nsec t), s)
    else None.
Proof.
  cbn [parse_chunk]. rewrite getnum_fixed_eq.
  by destruct (ascii_isDigit c0 && ascii_isDigit c1).
Qed.

Lemma parse_chunk_second_eq t c0 c1 :
  parse_chunk stdZeroSecond t (String c0 (String c1 "")) =
    if ascii_isDigit c0 && ascii_isDigit c1 then
      if ((num2 c0 c1 <? 0) || (60 <=? num2 c0 c1))%Z then None
      else Some (mkTime (year t) (month t) (day t) (hour t) (minute t)
                   (num2 c0 c1) (nsec t), "")
    else None.
Proof.
  cbn [parse_chunk]. rewrite getnum_fixed_eq.
  by destruct (ascii_isDigit c0 && ascii_isDigit c1).
Qed.

Lemma parse_chunk_lit_eq t c d s :
  d <> " "%char ->
  parse_chunk (lit (String d "")) t (String c s) =
    if Ascii.eqb c d then Some (t, s) else None.
Proof.
  intros Hd. cbn [parse_chunk]. unfold skip. cbn [String.length skip_loop].
  apply Ascii.eqb_neq in Hd. rewrite Hd.
  by destruct (Ascii.eqb c d).
Qed.

Ltac bool_facts :=
  repeat match goal with
  | H : (_ || _) = false |- _ => apply orb_false_iff in H as [? ?]
  | H : (_ && _) = true |- _ => apply andb_true_iff in H as [? ?]
  | H : (_ <=? _)%Z = false |- _ => apply Z.leb_gt in H
  | H : (_ <? _)%Z = false |- _ => apply Z.ltb_ge in H
  | H : Ascii.eqb _ _ = true |- _ => apply Ascii.eqb_eq in H
  end.

(** Case analysis on the test of the first [if] in [H]. *)
Ltac case_if H :=
  match type of H with
  | context [if ?b then _ else _] =>
      let E := fresh "E" in destruct b eqn:E; try discriminate H
  end.

Lemma Parse_date_inv (date : string) :
  String.length date = 10%nat ->
  char_at_is date 2 "/" = true -> char_at_is date 5 "/" = true ->
  snd (Parse layout_date date) = None ->
  exists d0 d1 m0 m1 y0 y1 y2 y3,
    date = date_text d0 d1 m0 m1 y0 y1 y2 y3
    /\ valid_date d0 d1 m0 m1 y0 y1 y2 y3.
Proof.
  intros Hlen H2 H5 H.
  do 10 (destruct date as [|? date]; [discriminate Hlen|]).
  destruct date; [|discriminate Hlen]. clear Hlen.
  unfold char_at_is in H2, H5. cbn [String.get] in H2, H5.
  apply Ascii.eqb_eq in H2 as ->. apply Ascii.eqb_eq in H5 as ->.
  unfold Parse, layout_date in H. cbn [parse_chunks] in H.
  rewrite parse_chunk_day_eq in H. case_if H.
  rewrite parse_chunk_slash in H.
  rewrite parse_chunk_month_eq in H. case_if H. case_if H.
  rewrite parse_chunk_slash in H.
  rewrite parse_chunk_year_eq in H. case_if H.
  cbn [String.length Nat.eqb negb year month day hour minute sec nsec] in H.
  repeat case_if H. all: bool_facts.
  all: repeat match goal with
       | H : (_ <? _)%Z = true |- _ => apply Z.ltb_lt in H
       end.
  all: pose proof (num2_nonneg a a0 ltac:(done) ltac:(done));
    pose proof (num2_nonneg a2 a3 ltac:(done) ltac:(done)).
  all: try lia.
  exists a, a0, a2, a3, a5, a6, a7, a8. split; [reflexivity|].
  unfold valid_date. repeat split; try done; lia.
Qed.

Lemma Parse_time_inv (timeStr : string) :
  String.length timeStr = 8%nat ->
  char_at_is timeStr 2 ":" = true -> char_at_is timeStr 5 ":" = true ->
  snd (Parse layout_time timeStr) = None ->
  exists h0 h1 mi0 mi1 s0 s1,
    timeStr = time_text h0 h1 mi0 mi1 s0 s1
    /\ valid_time h0 h1 mi0 mi1 s0 s1.
Proof.
  intros Hlen H2 H5 H.
  do 8 (destruct timeStr as [|? timeStr]; [discriminate Hlen|]).
  destruct timeStr; [|discriminate Hlen]. clear Hlen.
  unfold char_at_is in H2, H5. cbn [String.get] in H2, H5.
  apply Ascii.eqb_eq in H2 as ->. apply Ascii.eqb_eq in H5 as ->.
  unfold Parse, layout_time in H. cbn [parse_chunks] in H.
  rewrite parse_chunk_hour_eq in H.
  destruct (ascii_isDigit a) eqn:Ea; [|discriminate H].
  destruct (ascii_isDigit a0) eqn:Ea0.
  - case_if H.
    rewrite parse_chunk_colon in H.
    rewrite parse_chunk_minute_eq in H. case_if H. case_if H.
    rewrite parse_chunk_colon in H.
    rewrite parse_chunk_second_eq in H. case_if H. case_if H.
    bool_facts.
    exists a, a0, a2, a3, a5, a6. split; [reflexivity|].
    unfold valid_time. repeat split; try done; lia.
  - case_if H.
    rewrite parse_chunk_lit_eq in H by done.
    destruct (Ascii.eqb a0 ":") eqn:E0; [|discriminate H].
    apply Ascii.eqb_eq in E0 as ->.
    discriminate H.
Qed.

(** *** [validateHeader] *)

(** C9.  A header of 29 bytes that [validateHeader] accepts has a version
    part of exactly 4 characters: [Version()] returns the whole version
    part, and [Time()] parses the whole datetime part, without error. *)
Theorem validateHeader_version_length (h : Header)
    (Hlen : String.length h = 29%nat) (Hvalid : validateHeader h = None) :
  exists version datetime,
    h = ("IMD " ++ version ++ ": " ++ datetime)%string
    /\ SplitN (sdrop 4 h) ": " 2 = [version; datetime]
    /\ String.length version = 4%nat
    /\ String.length datetime = 19%nat
    /\ Header_Version h = Some version
    /\ Header_Time h = Some (Parse layout_datetime datetime)
    /\ snd (Parse layout_datetime datetime) = None.
Proof.
  unfold validateHeader in Hvalid.
  destruct (HasPrefix h "IMD ") eqn:Hp; [|discriminate Hvalid].
  cbn [negb] in Hvalid.
  destruct (SplitN (sdrop 4 h) ": " 2) as [|version [|datetime [|? ?]]] eqn:Hs;
    try discriminate Hvalid.
  repeat case_if Hvalid.
  destruct (Split datetime " ") as [|date [|timeStr [|? ?]]] eqn:Hd;
    try discriminate Hvalid.
  repeat case_if Hvalid.
  clear Hvalid.
  repeat match goal with
  | H : (_ || _) = false |- _ => apply orb_false_iff in H as [? ?]
  | H : negb _ = false |- _ => apply negb_false_iff in H
  | H : (_ =? _)%nat = true |- _ => apply Nat.eqb_eq in H
  end.
  assert (Hdate : (Parse layout_date date).2 = None)
    by (by destruct ((Parse layout_date date).2)).
  assert (Htime : (Parse layout_time timeStr).2 = None)
    by (by destruct ((Parse layout_time timeStr).2)).
  destruct (Parse_date_inv date) as (d0 & d1 & m0 & m1 & y0 & y1 & y2 & y3
    & -> & Hvd); try done.
  destruct (Parse_time_inv timeStr) as (h0 & h1 & mi0 & mi1 & s0 & s1
    & -> & Hvt); try done.
  apply Split_two in Hd. apply SplitN_two in Hs. apply HasPrefix_inv in Hp.
  cbn [String.length] in Hp. rewrite Hs in Hp.
  assert (Hv : String.length version = 4%nat).
  { apply (f_equal String.length) in Hp.
    rewrite !string_length_app in Hp. cbn [String.length] in Hp. lia. }
  exists version, datetime. split; [done|]. split; [done|].
  split; [done|]. split; [done|].
  do 4 (destruct version as [|? version]; [discriminate Hv|]).
  destruct version; [|discriminate Hv].
  unfold Header_Version, Header_Time. rewrite Hlen. cbn [Nat.leb].
  rewrite Hp. split; [reflexivity|]. split; [reflexivity|].
  rewrite Hd. by rewrite Parse_datetime.
Qed.

(** [Index] walks past a character that does not start the separator. *)
Lemma Index_cons_ne a sep c s :
  a <> c ->
  Index (String c s) (String a sep) = option_map S (Index s (String a sep)).
Proof.
  intros H. cbn [Index String.prefix].
  by destruct (ascii_dec a c).
Qed.

(** A character is not a digit, or is not the other character. *)
Ltac ne_char :=
  solve [ discriminate
        | match goal with
          | H : ascii_isDigit ?c = true |- _ <> ?c =>
              let E := fresh in
              intros E; rewrite <- E in H; vm_compute in H; discriminate H
          | H : ascii_isDigit ?c = true |- ?c <> _ =>
              let E := fresh in
              intros E; rewrite E in H; vm_compute in H; discriminate H
          end ].

Lemma Atoi_loop_digit c s n :
  ascii_isDigit c = true ->
  Atoi_loop (String c s) n = Atoi_loop s (n * 10 + digit_val c)%Z.
Proof.
  intros H. cbn [Atoi_loop].
  unfold ascii_isDigit in H. apply andb_true_iff in H as [H1 H2].
  apply N.leb_le in H1, H2.
  assert (E : (N_of_ascii c + 256 - 48) mod 256 = N_of_ascii c - 48).
  { replace (N_of_ascii c + 256 - 48) with (N_of_ascii c - 48 + 1 * 256) by lia.
    rewrite N.Div0.mod_add. apply N.mod_small. lia. }
  rewrite E. destruct (N.ltb_spec 9 (N_of_ascii c - 48)); [lia|].
  reflexivity.
Qed.

Lemma has_sign_digit c s : ascii_isDigit c = true -> has_sign (String c s) = false.
Proof.
  intros H. unfold has_sign, char_at_is. cbn [String.get].
  apply orb_false_iff. split; apply Ascii.eqb_neq; ne_char.
Qed.

Lemma Atoi_one c : ascii_isDigit c = true -> snd (Atoi (String c "")) = None.
Proof.
  intros H. unfold Atoi. rewrite has_sign_digit by done.
  cbn [len String.length Z.of_nat Z.ltb Z.compare Pos.compare Pos.compare_cont
       andb Pos.of_succ_nat Pos.succ].
  rewrite Atoi_loop_digit by done. reflexivity.
Qed.

Lemma Atoi_two c0 c1 :
  ascii_isDigit c0 = true -> ascii_isDigit c1 = true ->
  snd (Atoi (String c0 (String c1 ""))) = None.
Proof.
  intros H0 H1. unfold Atoi. rewrite has_sign_digit by done.
  cbn [len String.length Z.of_nat Z.ltb Z.compare Pos.compare Pos.compare_cont
       andb Pos.of_succ_nat Pos.succ].
  rewrite !Atoi_loop_digit by done. reflexivity.
Qed.

(** The canonical header, piece by piece. *)
Section canonical.
Variables v0 v2 v3 d0 d1 m0 m1 y0 y1 y2 y3 h0 h1 mi0 mi1 s0 s1 : ascii.
Hypothesis Hv0 : ascii_isDigit v0 = true.
Hypothesis Hv2 : ascii_isDigit v2 = true.
Hypothesis Hv3 : ascii_isDigit v3 = true.
Hypothesis Hdate : valid_date d0 d1 m0 m1 y0 y1 y2 y3.
Hypothesis Htime : valid_time h0 h1 mi0 mi1 s0 s1.

Local Abbreviation date := (date_text d0 d1 m0 m1 y0 y1 y2 y3).
Local Abbreviation timeStr := (time_text h0 h1 mi0 mi1 s0 s1).
Local Abbreviation datetime := (date ++ " " ++ timeStr)%string.

Lemma Index_datetime : Index datetime " " = Some 10%nat.
Proof.
  destruct Hdate as (? & ? & ? & ? & ? & ? & ? & ? & _).
  unfold date_text. cbn [String.append].
  rewrite !Index_cons_ne by ne_char. reflexivity.
Qed.

Lemma Index_time : Index timeStr " " = None.
Proof.
  destruct Htime as (? & ? & ? & ? & ? & ? & _).
  unfold time_text.
  rewrite !Index_cons_ne by ne_char. reflexivity.
Qed.

Lemma Split_datetime : Split datetime " " = [date; timeStr].
Proof.
  unfold Split, genSplit, Count.
  change (String.length datetime) with 19%nat.
  change (len datetime) with 19%Z.
  cbn [Z.eqb Count_loop]. rewrite Index_datetime.
  change (sdrop (10 + String.length " ") datetime) with timeStr.
  cbn [Count_loop]. rewrite Index_time.
  change (Z.to_nat _) with 1%nat.
  cbn [genSplit_loop]. rewrite Index_datetime. reflexivity.
Qed.

Lemma SplitN_version :
  SplitN (version_text v0 v2 v3 ++ ": " ++ datetime) ": " 2
  = [version_text v0 v2 v3; datetime].
Proof.
  unfold SplitN, genSplit.
  change (len (version_text v0 v2 v3 ++ ": " ++ datetime)) with 25%Z.
  cbn [Z.eqb]. change (Z.to_nat _) with 1%nat. cbn [genSplit_loop].
  unfold version_text. cbn [String.append].
  rewrite !Index_cons_ne by ne_char.
  reflexivity.
Qed.

Lemma validateHeader_header_text :
  validateHeader
    (header_text v0 v2 v3 d0 d1 m0 m1 y0 y1 y2 y3 h0 h1 mi0 mi1 s0 s1) = None.
Proof.
  unfold validateHeader.
  change (HasPrefix (header_text _ _ _ _ _ _ _ _ _ _ _ _ _ _ _ _ _) "IMD ")
    with true.
  change (sdrop 4 (header_text v0 v2 v3 d0 d1 m0 m1 y0 y1 y2 y3 h0 h1 mi0 mi1
                     s0 s1))
    with (version_text v0 v2 v3 ++ ": " ++ datetime)%string.
  cbn [negb]. rewrite SplitN_version.
  change (stake 1 (version_text v0 v2 v3)) with (String v0 "").
  change (sdrop 2 (version_text v0 v2 v3)) with (String v2 (String v3 "")).
  rewrite Atoi_one, Atoi_two by done.
  change (String.length (version_text v0 v2 v3)) with 4%nat.
  change (char_at_is (version_text v0 v2 v3) 1 ".") with true.
  change (String.length datetime) with 19%nat.
  cbn [Nat.ltb Nat.leb Nat.eqb negb orb is_nil].
  rewrite Split_datetime.
  change (String.length date) with 10%nat.
  change (String.length timeStr) with 8%nat.
  change (char_at_is date 2 "/") with true.
  change (char_at_is date 5 "/") with true.
  change (char_at_is timeStr 2 ":") with true.
  change (char_at_is timeStr 5 ":") with true.
  cbn [Nat.eqb negb orb].
  rewrite Parse_date, Parse_time by done.
  reflexivity.
Qed.
End canonical.

(** C4.  A header of the pattern ["IMD v.vv: dd/mm/yyyy hh:mm:ss"] with a
    calendar date and a time of the 24-hour clock has 29 bytes and is
    accepted by [validateHeader]; [Version()] returns its four characters
    ["v.vv"], and [Time()] returns, without error, the time that its date
    and time digits write. *)
Theorem header_canonical
    (v0 v2 v3 d0 d1 m0 m1 y0 y1 y2 y3 h0 h1 mi0 mi1 s0 s1 : ascii)
    (Hv0 : ascii_isDigit v0 = true) (Hv2 : ascii_isDigit v2 = true)
    (Hv3 : ascii_isDigit v3 = true)
    (Hdate : valid_date d0 d1 m0 m1 y0 y1 y2 y3)
    (Htime : valid_time h0 h1 mi0 mi1 s0 s1) :
  let h := header_text v0 v2 v3 d0 d1 m0 m1 y0 y1 y2 y3 h0 h1 mi0 mi1 s0 s1 in
  String.length h = 29%nat
  /\ validateHeader h = None
  /\ Header_Version h = Some (version_text v0 v2 v3)
  /\ Header_Time h =
       Some (mkTime (num4 y0 y1 y2 y3) (num2 m0 m1) (num2 d0 d1)
               (num2 h0 h1) (num2 mi0 mi1) (num2 s0 s1) 0, None).
Proof.
  intros h. split; [reflexivity|]. split.
  { by apply validateHeader_header_text. }
  split; [reflexivity|].
  unfold Header_Time.
  change (String.length h) with 29%nat. cbn [Nat.leb].
  change (sdrop 10 h)
    with (date_text d0 d1 m0 m1 y0 y1 y2 y3 ++ " "
            ++ time_text h0 h1 mi0 mi1 s0 s1)%string.
  by rewrite Parse_datetime.
Qed.

Lemma header_canonical_witness :
  valid_date "1" "5" "0" "3" "2" "0" "2" "1"
  /\ valid_time "1" "0" "3" "0" "0" "0"
  /\ validateHeader "IMD 1.18: 15/03/2021 10:30:00" = None
  /\ Header_Version "IMD 1.18: 15/03/2021 10:30:00" = Some "1.18"
  /\ Header_Time "IMD 1.18: 15/03/2021 10:30:00"
     = Some (mkTime 2021 3 15 10 30 0 0, None).
Proof.
  assert (Hd : valid_date "1" "5" "0" "3" "2" "0" "2" "1")
    by (repeat split; first [reflexivity | vm_compute; discriminate]).
  assert (Ht : valid_time "1" "0" "3" "0" "0" "0")
    by (repeat split; first [reflexivity | vm_compute; discriminate]).
  split; [exact Hd|]. split; [exact Ht|].
  exact (proj2 (header_canonical "1" "1" "8" "1" "5" "0" "3" "2" "0" "2" "1"
                  "1" "0" "3" "0" "0" "0" eq_refl eq_refl eq_refl Hd Ht)).
Defined.

Lemma validateHeader_version_length_witness :
  String.length "IMD 1.18: 15/03/2021 10:30:00" = 29%nat
  /\ validateHeader "IMD 1.18: 15/03/2021 10:30:00" = None
  /\ exists version datetime,
       "IMD 1.18: 15/03/2021 10:30:00" = ("IMD " ++ version ++ ": " ++ datetime)%string
       /\ SplitN (sdrop 4 "IMD 1.18: 15/03/2021 10:30:00") ": " 2
          = [version; datetime]
       /\ String.length version = 4%nat
       /\ String.length datetime = 19%nat
       /\ Header_Version "IMD 1.18: 15/03/2021 10:30:00" = Some version
       /\ Header_Time "IMD 1.18: 15/03/2021 10:30:00"
          = Some (Parse layout_datetime datetime)
       /\ snd (Parse layout_datetime datetime) = None.
Proof.
  split; [reflexivity|]. split; [vm_compute; reflexivity|].
  apply (validateHeader_version_length "IMD 1.18: 15/03/2021 10:30:00");
    [reflexivity | vm_compute; reflexivity].
Defined.

Lemma string_of_bytes_length l : String.length (string_of_bytes l) = length l.
Proof.
  unfold string_of_bytes, string_of_list_byte.
  induction l as [|b l IH]; [done|]. cbn. by rewrite IH.
Qed.

(** X20.  The header of the [File] that [Decode] returns, with or without
    error, is empty (the read of the header failed) or has 29 bytes. *)
Lemma Decode_header_length r :
  File_Header (Decode r).1.1 = "" \/ String.length (File_Header (Decode r).1.1) = 29%nat.
Proof.
  unfold Decode.
  destruct (Read r (make 29)) as [[[header k] [e|]] r0] eqn:E; [by left|].
  apply Read_length in E. rewrite length_make in E.
  right.
  assert (H : String.length (string_of_bytes header) = 29%nat)
    by (by rewrite string_of_bytes_length).
  cbn [File_Header zeroFile Comment Tracks].
  destruct (validateHeader _); [done|].
  destruct (readStringASCIIEOF r0) as [[comment [e|]] r1]; [done|].
  cbn [Decode_for]. unfold Decode_for_body.
  repeat match goal with
  | |- context [readByte ?r] => destruct (readByte r) as [[? [?|]] ?]; [done|]
  | |- context [Read ?r ?p] => destruct (Read r p) as [[[? ?] [?|]] ?]; [try done|]
  | |- context [if ?b then _ else _] => destruct b
  | |- context [sectorLoop ?a ?b ?c ?d ?e ?f] =>
      destruct (sectorLoop a b c d e f) as [[? [?|]] ?]; [done|]
  end; done.
Qed.

(* ===================================================================== *)
(** * Further properties *)
(* ===================================================================== *)

(** ** Further properties of the header *)

(** What [validateHeader] accepts: the signature, a version, the
    separator, a date, a space and a time. *)
Lemma validateHeader_inv (h : Header) :
  validateHeader h = None ->
  exists version d0 d1 m0 m1 y0 y1 y2 y3 h0 h1 mi0 mi1 s0 s1,
    h = ("IMD " ++ version ++ ": " ++ date_text d0 d1 m0 m1 y0 y1 y2 y3
           ++ " " ++ time_text h0 h1 mi0 mi1 s0 s1)%string
    /\ (4 <= String.length version <= 6)%nat
    /\ char_at_is version 1 "." = true
    /\ snd (Atoi (stake 1 version)) = None
    /\ snd (Atoi (sdrop 2 version)) = None
    /\ valid_date d0 d1 m0 m1 y0 y1 y2 y3
    /\ valid_time h0 h1 mi0 mi1 s0 s1.
Proof.
  intros Hvalid. unfold validateHeader in Hvalid.
  destruct (HasPrefix h "IMD ") eqn:Hp; [|discriminate Hvalid].
  cbn [negb] in Hvalid.
  destruct (SplitN (sdrop 4 h) ": " 2) as [|version [|datetime [|? ?]]] eqn:Hs;
    try discriminate Hvalid.
  repeat case_if Hvalid.
  destruct (Split datetime " ") as [|date [|timeStr [|? ?]]] eqn:Hd;
    try discriminate Hvalid.
  repeat case_if Hvalid. clear Hvalid.
  repeat match goal with
  | H : (_ || _) = false |- _ => apply orb_false_iff in H as [? ?]
  | H : negb _ = false |- _ => apply negb_false_iff in H
  | H : (_ =? _)%nat = true |- _ => apply Nat.eqb_eq in H
  | H : (_ <? _)%nat = false |- _ => apply Nat.ltb_ge in H
  end.
  assert (Hdate : (Parse layout_date date).2 = None)
    by (by destruct ((Parse layout_date date).2)).
  assert (Htime : (Parse layout_time timeStr).2 = None)
    by (by destruct ((Parse layout_time timeStr).2)).
  destruct (Parse_date_inv date) as (d0 & d1 & m0 & m1 & y0 & y1 & y2 & y3
    & -> & Hvd); try done.
  destruct (Parse_time_inv timeStr) as (h0 & h1 & mi0 & mi1 & s0 & s1
    & -> & Hvt); try done.
  apply Split_two in Hd. apply SplitN_two in Hs. apply HasPrefix_inv in Hp.
  cbn [String.length] in Hp. rewrite Hs, Hd in Hp.
  exists version, d0, d1, m0, m1, y0, y1, y2, y3, h0, h1, mi0, mi1, s0, s1.
  split; [done|]. split; [lia|]. split; [done|].
  split; [by destruct ((Atoi (stake 1 version)).2)|].
  split; [by destruct ((Atoi (sdrop 2 version)).2)|].
  done.
Qed.

(** The digit loop of [Atoi] goes on at a digit and stops at anything
    else. *)
Lemma Atoi_loop_char c s n :
  Atoi_loop (String c s) n =
    if ascii_isDigit c then Atoi_loop s (n * 10 + digit_val c)%Z else None.
Proof.
  destruct (ascii_isDigit c) eqn:E; [by apply Atoi_loop_digit|].
  cbn [Atoi_loop]. unfold ascii_isDigit in E.
  pose proof (N_ascii_bounded c) as Hb.
  assert (H : 9 < (N_of_ascii c + 256 - 48) mod 256).
  { apply andb_false_iff in E as [E|E].
    - apply N.leb_gt in E.
      rewrite N.mod_small by lia. lia.
    - apply N.leb_gt in E.
      replace (N_of_ascii c + 256 - 48) with (N_of_ascii c - 48 + 1 * 256) by lia.
      rewrite N.Div0.mod_add, N.mod_small by lia. lia. }
  apply N.ltb_lt in H. by rewrite H.
Qed.

Ltac atoi_cbn :=
  cbn [orb andb negb sdrop len String.length Z.of_nat Z.ltb Z.compare
       Pos.compare Pos.compare_cont Pos.of_succ_nat Pos.succ snd fst].

Lemma Atoi_one_iff c : snd (Atoi (String c "")) = None <-> ascii_isDigit c = true.
Proof.
  split; [|apply Atoi_one].
  unfold Atoi, has_sign, char_at_is. cbn [String.get].
  destruct (ascii_isDigit c) eqn:E; [done|].
  destruct (Ascii.eqb c "-") eqn:E1; [by apply Ascii.eqb_eq in E1 as ->|].
  destruct (Ascii.eqb c "+") eqn:E2; [by apply Ascii.eqb_eq in E2 as ->|].
  atoi_cbn. by rewrite Atoi_loop_char, E.
Qed.

Lemma Atoi_two_iff a b :
  snd (Atoi (String a (String b ""))) = None <-> minor_ok a b = true.
Proof.
  unfold minor_ok, Atoi, has_sign, char_at_is. cbn [String.get].
  destruct (Ascii.eqb a "-") eqn:E1.
  { apply Ascii.eqb_eq in E1 as ->. atoi_cbn.
    rewrite Atoi_loop_char. change (ascii_isDigit "-") with false.
    by destruct (ascii_isDigit b). }
  destruct (Ascii.eqb a "+") eqn:E2.
  { apply Ascii.eqb_eq in E2 as ->. atoi_cbn.
    rewrite Atoi_loop_char. change (ascii_isDigit "+") with false.
    by destruct (ascii_isDigit b). }
  atoi_cbn. rewrite !Atoi_loop_char.
  by destruct (ascii_isDigit a), (ascii_isDigit b).
Qed.

Lemma minor_ok_colon a b :
  minor_ok a b = true -> ":"%char <> a /\ ":"%char <> b /\ ascii_isDigit b = true.
Proof.
  unfold minor_ok. intros H. apply andb_true_iff in H as [Ha Hb].
  split; [|split; [ne_char|done]].
  intros <-. discriminate Ha.
Qed.

(** [validateHeader] accepts a header of the pattern whose minor version
    [strconv.Atoi] accepts. *)
Lemma validateHeader_header_text_signed
    (v0 v2 v3 d0 d1 m0 m1 y0 y1 y2 y3 h0 h1 mi0 mi1 s0 s1 : ascii) :
  ascii_isDigit v0 = true -> minor_ok v2 v3 = true ->
  valid_date d0 d1 m0 m1 y0 y1 y2 y3 -> valid_time h0 h1 mi0 mi1 s0 s1 ->
  validateHeader
    (header_text v0 v2 v3 d0 d1 m0 m1 y0 y1 y2 y3 h0 h1 mi0 mi1 s0 s1) = None.
Proof.
  intros Hv0 Hminor Hdate Htime.
  destruct (minor_ok_colon _ _ Hminor) as (Hv2 & Hv3 & Hd3).
  set (date := date_text d0 d1 m0 m1 y0 y1 y2 y3).
  set (timeStr := time_text h0 h1 mi0 mi1 s0 s1).
  assert (Hsplit :
    SplitN (version_text v0 v2 v3 ++ ": " ++ date ++ " " ++ timeStr) ": " 2
    = [version_text v0 v2 v3; (date ++ " " ++ timeStr)%string]).
  { unfold SplitN, genSplit.
    change (len (version_text v0 v2 v3 ++ ": " ++ date ++ " " ++ timeStr))
      with 25%Z.
    cbn [Z.eqb]. change (Z.to_nat _) with 1%nat. cbn [genSplit_loop].
    unfold version_text. cbn [String.append].
    rewrite !Index_cons_ne by first [done | ne_char].
    reflexivity. }
  unfold validateHeader.
  change (HasPrefix (header_text _ _ _ _ _ _ _ _ _ _ _ _ _ _ _ _ _) "IMD ")
    with true.
  change (sdrop 4 (header_text v0 v2 v3 d0 d1 m0 m1 y0 y1 y2 y3 h0 h1 mi0 mi1
                     s0 s1))
    with (version_text v0 v2 v3 ++ ": " ++ date ++ " " ++ timeStr)%string.
  cbn [negb]. rewrite Hsplit.
  change (stake 1 (version_text v0 v2 v3)) with (String v0 "").
  change (sdrop 2 (version_text v0 v2 v3)) with (String v2 (String v3 "")).
  rewrite Atoi_one by done.
  rewrite (proj2 (Atoi_two_iff v2 v3) Hminor).
  change (String.length (version_text v0 v2 v3)) with 4%nat.
  change (char_at_is (version_text v0 v2 v3) 1 ".") with true.
  change (String.length (date ++ " " ++ timeStr)) with 19%nat.
  cbn [Nat.ltb Nat.leb Nat.eqb negb orb is_nil].
  unfold date, timeStr. rewrite Split_datetime by done.
  fold date timeStr.
  change (String.length date) with 10%nat.
  change (String.length timeStr) with 8%nat.
  change (char_at_is date 2 "/") with true.
  change (char_at_is date 5 "/") with true.
  change (char_at_is timeStr 2 ":") with true.
  change (char_at_is timeStr 5 ":") with true.
  cbn [Nat.eqb negb orb].
  unfold date, timeStr. rewrite Parse_date, Parse_time by done.
  reflexivity.
Qed.

(** A header of 29 bytes that [validateHeader] accepts is of the
    pattern. *)
Lemma validateHeader_29_inv (h : Header) :
  String.length h = 29%nat -> validateHeader h = None ->
  exists v0 v2 v3 d0 d1 m0 m1 y0 y1 y2 y3 h0 h1 mi0 mi1 s0 s1,
    h = header_text v0 v2 v3 d0 d1 m0 m1 y0 y1 y2 y3 h0 h1 mi0 mi1 s0 s1
    /\ ascii_isDigit v0 = true /\ minor_ok v2 v3 = true
    /\ valid_date d0 d1 m0 m1 y0 y1 y2 y3
    /\ valid_time h0 h1 mi0 mi1 s0 s1.
Proof.
  intros Hlen Hvalid.
  destruct (validateHeader_inv h Hvalid) as (version & d0 & d1 & m0 & m1
    & y0 & y1 & y2 & y3 & h0 & h1 & mi0 & mi1 & s0 & s1
    & -> & Hv & Hdot & Hmaj & Hmin & Hd & Ht).
  assert (Hv4 : String.length version = 4%nat).
  { rewrite !string_length_app in Hlen.
    unfold date_text, time_text in Hlen. cbn [String.length] in Hlen. lia. }
  do 4 (destruct version as [|? version]; [discriminate Hv4|]).
  destruct version; [|discriminate Hv4].
  unfold char_at_is in Hdot. cbn [String.get] in Hdot.
  apply Ascii.eqb_eq in Hdot as ->.
  cbn [stake] in Hmaj. cbn [sdrop] in Hmin.
  apply Atoi_one_iff in Hmaj. apply Atoi_two_iff in Hmin.
  by exists a, a1, a2, d0, d1, m0, m1, y0, y1, y2, y3, h0, h1, mi0, mi1, s0, s1.
Qed.

(** X1.  The headers of 29 bytes that [validateHeader] accepts are
    exactly those of the pattern ["IMD v.vv: dd/mm/yyyy hh:mm:ss"] with a
    digit for the major version, a minor version of two digits or of a
    sign and a digit, a calendar date and a time of the 24-hour clock. *)
Theorem validateHeader_29_iff (h : Header) :
  String.length h = 29%nat /\ validateHeader h = None <->
  exists v0 v2 v3 d0 d1 m0 m1 y0 y1 y2 y3 h0 h1 mi0 mi1 s0 s1,
    h = header_text v0 v2 v3 d0 d1 m0 m1 y0 y1 y2 y3 h0 h1 mi0 mi1 s0 s1
    /\ ascii_isDigit v0 = true /\ minor_ok v2 v3 = true
    /\ valid_date d0 d1 m0 m1 y0 y1 y2 y3
    /\ valid_time h0 h1 mi0 mi1 s0 s1.
Proof.
  split.
  - intros [Hlen Hvalid]. by apply validateHeader_29_inv.
  - intros (v0 & v2 & v3 & d0 & d1 & m0 & m1 & y0 & y1 & y2 & y3
      & h0 & h1 & mi0 & mi1 & s0 & s1 & -> & Hv0 & Hmin & Hd & Ht).
    split; [reflexivity|]. by apply validateHeader_header_text_signed.
Qed.

(** X2.  A header that [validateHeader] accepts has 29 to 31 characters:
    the signature, a version of 4 to 6 characters, the separator and a
    datetime of 19 characters. *)
Theorem validateHeader_length (h : Header) (Hvalid : validateHeader h = None) :
  (29 <= String.length h <= 31)%nat.
Proof.
  destruct (validateHeader_inv h Hvalid) as (version & d0 & d1 & m0 & m1
    & y0 & y1 & y2 & y3 & h0 & h1 & mi0 & mi1 & s0 & s1
    & -> & Hv & _).
  rewrite !string_length_app.
  unfold date_text, time_text. cbn [String.length]. lia.
Qed.

Lemma validateHeader_length_witness :
  validateHeader "IMD 1.1234: 15/03/2021 10:30:00" = None
  /\ (29 <= String.length "IMD 1.1234: 15/03/2021 10:30:00" <= 31)%nat.
Proof.
  assert (H : validateHeader "IMD 1.1234: 15/03/2021 10:30:00" = None)
    by (vm_compute; reflexivity).
  split; [exact H|].
  exact (validateHeader_length "IMD 1.1234: 15/03/2021 10:30:00" H).
Defined.

(** ** Further properties of [Decode] *)

(** The results of one turn of the loop over the tracks: the file as it
    was, with an error or without, or the file with one more track. *)
Lemma Decode_for_cases turns file r :
  (exists err r', Decode_for (S turns) file r = (file, err, r'))
  \/ (exists t r',
       Decode_for (S turns) file r =
         (mkFile (File_Header file) (Comment file) (Tracks file ++ [t]), None, r')).
Proof.
  cbn [Decode_for]. unfold Decode_for_body.
  repeat match goal with
  | |- context [readByte ?r] =>
      destruct (readByte r) as [[? [?|]] ?]; [left; by eexists _, _|]
  | |- context [if ?b then _ else _] => destruct b
  | |- context [Read ?r ?p] =>
      destruct (Read r p) as [[[? ?] [?|]] ?]; [left; by eexists _, _|]
  | |- context [sectorLoop ?a ?b ?c ?d ?e ?f] =>
      destruct (sectorLoop a b c d e f) as [[? [?|]] ?]; [left; by eexists _, _|]
  end; right; by eexists _, _.
Qed.

(** The results of [Decode]. *)
Lemma Decode_cases r :
  (exists e r', Decode r = (zeroFile, Some e, r'))
  \/ exists hdr, length hdr = 29%nat /\
     ((exists e r', validateHeader (string_of_bytes hdr) = Some e
         /\ Decode r = (mkFile (string_of_bytes hdr) "" [], Some e, r'))
      \/ validateHeader (string_of_bytes hdr) = None /\
         exists comment r',
           ((exists err, Decode r = (mkFile (string_of_bytes hdr) comment [], err, r'))
            \/ exists t, Decode r = (mkFile (string_of_bytes hdr) comment [t], None, r'))).
Proof.
  unfold Decode.
  destruct (Read r (make 29)) as [[[header k] [e|]] r0] eqn:E;
    [left; by eexists _, _|].
  apply Read_length in E. rewrite length_make in E.
  right. exists header. split; [done|].
  cbn [File_Header zeroFile Comment Tracks].
  destruct (validateHeader _) as [e|]; [left; by eexists _, _|].
  right. split; [done|].
  destruct (readStringASCIIEOF r0) as [[comment [e|]] r1].
  { exists comment, r1. left. by eexists. }
  destruct (Decode_for_cases (length r1)
              (mkFile (string_of_bytes header) comment []) r1)
    as [(err & r' & ->) | (t & r' & ->)].
  - exists comment, r'. left. by eexists.
  - exists comment, r'. right. by eexists.
Qed.

(** X3.  A [File] returned with an error has no tracks. *)
Theorem Decode_error_no_tracks (r : Reader) (e : error)
    (Herr : (Decode r).1.2 = Some e) :
  Tracks (Decode r).1.1 = [].
Proof.
  destruct (Decode_cases r) as [(e' & r' & E) | (hdr & Hlen &
    [(e' & r' & _ & E) | (Hv & comment & r' & [(err & E) | (t & E)])])];
    rewrite E in *; try done.
Qed.

Lemma Header_Time_header_text
    (v0 v2 v3 d0 d1 m0 m1 y0 y1 y2 y3 h0 h1 mi0 mi1 s0 s1 : ascii) :
  valid_date d0 d1 m0 m1 y0 y1 y2 y3 -> valid_time h0 h1 mi0 mi1 s0 s1 ->
  Header_Time
    (header_text v0 v2 v3 d0 d1 m0 m1 y0 y1 y2 y3 h0 h1 mi0 mi1 s0 s1)
  = Some (mkTime (num4 y0 y1 y2 y3) (num2 m0 m1) (num2 d0 d1)
            (num2 h0 h1) (num2 mi0 mi1) (num2 s0 s1) 0, None).
Proof.
  intros Hd Ht. unfold Header_Time.
  change (String.length (header_text _ _ _ _ _ _ _ _ _ _ _ _ _ _ _ _ _))
    with 29%nat.
  cbn [Nat.leb].
  change (sdrop 10 (header_text v0 v2 v3 d0 d1 m0 m1 y0 y1 y2 y3 h0 h1 mi0 mi1
                      s0 s1))
    with (date_text d0 d1 m0 m1 y0 y1 y2 y3 ++ " "
            ++ time_text h0 h1 mi0 mi1 s0 s1)%string.
  by rewrite Parse_datetime.
Qed.

(** X4.  The header of a [File] returned without error has 29 bytes and
    is accepted by [validateHeader]; its [Version()] is a text of four
    characters and its [Time()] succeeds. *)
Theorem Decode_success_header (r : Reader)
    (Hok : (Decode r).1.2 = None) :
  let h := File_Header (Decode r).1.1 in
  String.length h = 29%nat
  /\ validateHeader h = None
  /\ (exists v, Header_Version h = Some v /\ String.length v = 4%nat)
  /\ (exists t, Header_Time h = Some (t, None)).
Proof.
  assert (H : String.length (File_Header (Decode r).1.1) = 29%nat
              /\ validateHeader (File_Header (Decode r).1.1) = None).
  { destruct (Decode_cases r) as [(e' & r' & E) | (hdr & Hlen &
      [(e' & r' & _ & E) | (Hv & comment & r' & [(err & E) | (t & E)])])];
      rewrite E in *; try done.
    all: cbn; by rewrite string_of_bytes_length. }
  destruct H as [Hlen Hv]. intros h. fold h in Hlen, Hv.
  split; [done|]. split; [done|].
  destruct (validateHeader_29_inv h Hlen Hv) as (v0 & v2 & v3 & d0 & d1 & m0
    & m1 & y0 & y1 & y2 & y3 & h0 & h1 & mi0 & mi1 & s0 & s1 & -> & _ & _
    & Hd & Ht).
  split.
  - by exists (version_text v0 v2 v3).
  - eexists. by apply Header_Time_header_text.
Qed.



(** *** The header, the comment and the fields of a track *)

(** X6.  With a header that [validateHeader] accepts and a comment that
    ends in the sentinel, the [File] that [Decode] returns holds the text
    of the 29 header bytes and the text of the comment, whatever follows
    the sentinel and whether the track after it decodes or not. *)
Theorem Decode_header_comment (hdr comment rest : list byte)
    (Hhdr : length hdr = 29%nat)
    (Hvalid : validateHeader (string_of_bytes hdr) = None)
    (Hcomment : x1a ∉ comment) :
  File_Header (Decode (hdr ++ comment ++ x1a :: rest)).1.1 = string_of_bytes hdr
  /\ Comment (Decode (hdr ++ comment ++ x1a :: rest)).1.1
     = string_of_runes comment.
Proof.
  rewrite Decode_stream by done. rewrite Hvalid.
  by destruct (Decode_for_cases (length rest)
                 (mkFile (string_of_bytes hdr) (string_of_runes comment) [])
                 rest) as [(err & r' & ->) | (t & r' & ->)].
Qed.

(** X7.  The fields of a decoded track are the bytes of the stream in
    their order: mode, cylinder, head, sector count, sector size, then
    the numbering map, then the cylinder map if bit 6 of the head byte is
    set, then the head map if bit 7 is set. *)
Theorem Decode_track_fields (hdr comment : list byte) (m c h n z : byte)
    (nm cm hm sectors : list byte) (t : Track)
    (Hshape : image_shape hdr comment h n nm cm hm)
    (Hsectors : sectors <> [])
    (Ht : t ∈ Tracks (Decode (image hdr comment m c h n z nm cm hm sectors)).1.1) :
  ModeValue t = m /\ Cylinder t = c /\ Head t = h
  /\ NumberOfSectors t = n /\ SectorSize t = z
  /\ SectorNumberingMap t = Some nm
  /\ SectorCylinderMap t = (if N.testbit (Byte.to_N h) 6 then Some cm else None)
  /\ SectorHeadMap t = (if N.testbit (Byte.to_N h) 7 then Some hm else None).
Proof.
  rewrite Decode_image in Ht by done.
  destruct (validateHeader _); [elem_of_one Ht|].
  destruct (sectorLoop _ _ _ _ _ _) as [[recs [e|]] r']; elem_of_one Ht.
  rewrite <- has_cylinder_map_bit6, <- has_head_map_bit7. by cbn.
Qed.

(** *** The sector records *)

(** X8.  In a track with sector size [z], a slot whose record is a
    discriminant 1, 3, 5 or 7 followed by [z] bytes decodes to a present
    buffer holding these bytes. *)
Theorem Decode_verbatim_sector (hdr comment : list byte) (m c h n z : byte)
    (nm cm hm secs payload post : list byte) (j : nat) (d : byte) (t : Track)
    (Hshape : image_shape hdr comment h n nm cm hm)
    (Hslot : slot_starts_at z n j secs (d :: payload ++ post))
    (Hd : is_verbatim d = true)
    (Hpayload : length payload = byte_len z)
    (Hmore : payload ++ post <> [])
    (Ht : t ∈ Tracks (Decode (image hdr comment m c h n z nm cm hm
                                (secs ++ d :: payload ++ post))).1.1) :
  SectorDataRecords t !! j = Some (Some payload).
Proof.
  rewrite Decode_image in Ht by (try done; solve_ne).
  destruct (validateHeader _); [elem_of_one Ht|].
  destruct (sectorLoop_slot _ _ _ _ _ Hslot) as (recs & k & Hn & Hlen & HR & HL).
  rewrite HL in Ht by done.
  rewrite sectorLoop_verbatim in Ht by done.
  rewrite Read_full in Ht by (by rewrite ?length_make).
  destruct (sectorLoop k _ _ _ _ _) as [[recs' [e|]] r'] eqn:E; elem_of_one Ht.
  cbn. apply sectorLoop_invariant in E as (_ & _ & E & _).
  rewrite E by lia. apply list_lookup_insert_eq. unfold slice in *. lia.
Qed.

(** X9.  A slot whose record is the discriminant 0 decodes to an absent
    payload, and its record is that one byte: the record of the next slot
    starts right after it. *)
Theorem Decode_unavailable_sector (hdr comment : list byte) (m c h n z : byte)
    (nm cm hm secs post : list byte) (j : nat)
    (Hshape : image_shape hdr comment h n nm cm hm)
    (Hslot : slot_starts_at z n j secs (x00 :: post)) :
  (forall t,
     t ∈ Tracks (Decode (image hdr comment m c h n z nm cm hm
                           (secs ++ x00 :: post))).1.1 ->
     SectorDataRecords t !! j = Some None)
  /\ ((S j < byte_len n)%nat -> post <> [] ->
      slot_starts_at z n (S j) (secs ++ [x00]) post).
Proof.
  destruct (sectorLoop_slot _ _ _ _ _ Hslot) as (recs & k & Hn & Hlen & HR & HL).
  split.
  - intros t Ht.
    rewrite Decode_image in Ht by (try done; solve_ne).
    destruct (validateHeader _); [elem_of_one Ht|].
    rewrite HL in Ht by done.
    rewrite sectorLoop_other in Ht by done.
    destruct (sectorLoop k _ _ _ _ _) as [[recs' [e|]] r'] eqn:E; elem_of_one Ht.
    cbn. apply sectorLoop_invariant in E as (_ & _ & E & _).
    rewrite E by lia.
    rewrite (sectorLoop_untouched _ _ _ _ _ _ _ _ _ HR) by lia.
    apply lookup_replicate_2. lia.
  - intros Hj Hpost. split; [done|]. split; [done|].
    exists recs. rewrite <- app_assoc. cbn [app].
    replace (S j) with (j + 1)%nat by lia.
    rewrite sectorLoop_add, HR. reflexivity.
Qed.

(** *** The end of the track and the end of the stream *)

(** X10.  [Decode] decodes the first track and stops: on an image with a
    header that [validateHeader] accepts and the complete records of one
    track, it returns the file with that track and no error, and leaves
    unread the bytes that follow the track, whatever they are, as long as
    there is one. *)
Theorem Decode_first_track (hdr comment : list byte) (m c h n z : byte)
    (nm cm hm secs rest rest' : list byte) (recs : list slice)
    (Hshape : image_shape hdr comment h n nm cm hm)
    (Hvalid : validateHeader (string_of_bytes hdr) = None)
    (Hrecs : records_end_at z n secs rest recs)
    (Hrest' : rest' <> []) :
  Decode (image hdr comment m c h n z nm cm hm (secs ++ rest'))
  = (mkFile (string_of_bytes hdr) (string_of_runes comment)
       [mkTrack m c h n z (Some nm)
          (if has_cylinder_map h then Some cm else None)
          (if has_head_map h then Some hm else None) recs],
     None, rest').
Proof.
  destruct Hrecs as [Hrest HL].
  rewrite Decode_image by (try done; solve_ne). rewrite Hvalid.
  by rewrite (sectorLoop_local _ _ _ _ _ _ _ _ HL Hrest rest' Hrest').
Qed.

Lemma app_ne_nil_len {A} (a b : list A) :
  (0 < length a)%nat \/ b <> [] -> a ++ b <> [].
Proof.
  intros [H|H] E; apply app_eq_nil in E as [E1 E2]; subst; [cbn in H; lia|done].
Qed.

(** [Decode_for_stream] for a track with sectors, whatever follows the
    maps. *)
Lemma Decode_for_stream_sectors turns file m c h n z nm cm hm rest :
  length nm = byte_len n ->
  length cm = (if has_cylinder_map h then byte_len n else 0)%nat ->
  length hm = (if has_head_map h then byte_len n else 0)%nat ->
  (0 < byte_len n)%nat ->
  Decode_for (S turns) file
    (m :: c :: h :: n :: z :: nm ++ cm ++ hm ++ rest) =
    let '(recs, err, r) :=
      sectorLoop (byte_len n) 0 z rest x00 (replicate (byte_len n) None) in
    match err with
    | Some err => (file, Some err, r)
    | None =>
        (mkFile (File_Header file) (Comment file)
           (Tracks file ++
              [mkTrack m c h n z (Some nm)
                 (if has_cylinder_map h then Some cm else None)
                 (if has_head_map h then Some hm else None) recs]),
         None, r)
    end.
Proof.
  intros Hnm Hcm Hhm Hpos. cbn [Decode_for]. unfold Decode_for_body.
  rewrite !readByte_cons.
  fold (has_cylinder_map h). fold (has_head_map h).
  rewrite Read_full;
    [|by rewrite length_make|apply app_ne_nil_len; left; lia].
  revert Hcm Hhm.
  destruct (has_cylinder_map h), (has_head_map h); intros Hcm Hhm.
  - rewrite Read_full;
      [|by rewrite length_make|apply app_ne_nil_len; left; lia].
    rewrite Read_full;
      [|by rewrite length_make|apply app_ne_nil_len; left; lia].
    by destruct (sectorLoop _ _ _ _ _ _) as [[? [?|]] ?].
  - apply nil_length_inv in Hhm as ->. cbn [app].
    rewrite Read_full;
      [|by rewrite length_make|apply app_ne_nil_len; left; lia].
    by destruct (sectorLoop _ _ _ _ _ _) as [[? [?|]] ?].
  - apply nil_length_inv in Hcm as ->. cbn [app].
    rewrite Read_full;
      [|by rewrite length_make|apply app_ne_nil_len; left; lia].
    by destruct (sectorLoop _ _ _ _ _ _) as [[? [?|]] ?].
  - apply nil_length_inv in Hcm as ->. apply nil_length_inv in Hhm as ->.
    by destruct (sectorLoop _ _ _ _ _ _) as [[? [?|]] ?].
Qed.

(** X11.  If the stream ends where the record of a sector slot would
    start, before all slots of the track are read, [Decode] returns
    [io.EOF] and the file without the track. *)
Theorem Decode_truncated_sectors (hdr comment : list byte) (m c h n z : byte)
    (nm cm hm secs : list byte) (j : nat) (recs : list slice)
    (Hshape : image_shape hdr comment h n nm cm hm)
    (Hvalid : validateHeader (string_of_bytes hdr) = None)
    (Hj : (j < byte_len n)%nat)
    (Hrecs : sectorLoop j 0 z secs x00 (replicate (byte_len n) None)
             = (recs, None, [])) :
  Decode (image hdr comment m c h n z nm cm hm secs)
  = (mkFile (string_of_bytes hdr) (string_of_runes comment) [],
     Some io_EOF, []).
Proof.
  destruct Hshape as (Hhdr & Hc & Hnm & Hcm & Hhm). unfold image.
  rewrite Decode_stream by done. rewrite Hvalid.
  rewrite Decode_for_stream_sectors by (try done; lia).
  replace (byte_len n) with (j + S (byte_len n - S j))%nat at 1 by lia.
  rewrite sectorLoop_add, Hrecs. reflexivity.
Qed.

(** X12.  If the stream ends after the mode byte of a track and before its
    fifth byte, [Decode] returns [io.EOF] and the file without tracks. *)
Theorem Decode_truncated_track_header (hdr comment pre : list byte)
    (Hhdr : length hdr = 29%nat)
    (Hvalid : validateHeader (string_of_bytes hdr) = None)
    (Hcomment : x1a ∉ comment)
    (Hpre : (1 <= length pre <= 4)%nat) :
  Decode (hdr ++ comment ++ x1a :: pre)
  = (mkFile (string_of_bytes hdr) (string_of_runes comment) [],
     Some io_EOF, []).
Proof.
  rewrite Decode_stream by done. rewrite Hvalid.
  destruct pre as [|a [|b [|c [|d [|e pre]]]]]; cbn in Hpre; try lia;
    reflexivity.
Qed.

(** A read of more than is left takes what is left and leaves the rest
    of the buffer as it was. *)
Lemma Read_short part p :
  part <> [] -> (length part <= length p)%nat ->
  Read part p = (part ++ drop (length part) p, length part, None, []).
Proof.
  intros Hne Hle. destruct part as [|b part]; [done|].
  unfold Read. cbn [length] in Hle |- *.
  rewrite Nat.min_r by lia.
  rewrite take_ge by (cbn [length]; lia).
  by rewrite (drop_ge (b :: part)) by (cbn [length]; lia).
Qed.

(** X13.  If the stream ends within the payload of a record of
    discriminant 1, 3, 5 or 7 in the last slot of the track, one byte of
    the payload at least being there, [Decode] returns no error: the
    payload of the slot is the bytes that are there followed by zero
    bytes up to the sector size. *)
Theorem Decode_partial_payload (hdr comment : list byte) (m c h n z : byte)
    (nm cm hm secs part : list byte) (j : nat) (d : byte)
    (Hshape : image_shape hdr comment h n nm cm hm)
    (Hvalid : validateHeader (string_of_bytes hdr) = None)
    (Hslot : slot_starts_at z n j secs (d :: part))
    (Hlast : byte_len n = S j)
    (Hd : is_verbatim d = true)
    (Hpart : part <> [])
    (Hshort : (length part < byte_len z)%nat) :
  exists t,
    Decode (image hdr comment m c h n z nm cm hm (secs ++ d :: part))
    = (mkFile (string_of_bytes hdr) (string_of_runes comment) [t], None, [])
    /\ SectorDataRecords t !! j
       = Some (Some (part ++ replicate (byte_len z - length part) x00)).
Proof.
  rewrite Decode_image by (try done; solve_ne). rewrite Hvalid.
  destruct (sectorLoop_slot _ _ _ _ _ Hslot) as (recs & k & Hn & Hlen & HR & HL).
  rewrite HL by done.
  assert (k = 0%nat) as -> by lia.
  rewrite sectorLoop_verbatim by done.
  rewrite Read_short by (rewrite ?length_make; first [done | lia]).
  cbn [sectorLoop]. eexists. split; [reflexivity|]. cbn.
  unfold make. rewrite drop_replicate.
  apply list_lookup_insert_eq. unfold slice in *. lia.
Qed.

(** X14.  If the stream ends before the sentinel of the comment, [Decode]
    returns [io.EOF] and the file with the header and with the text read
    up to the end as its comment. *)
Theorem Decode_comment_unterminated (hdr rest : list byte)
    (Hhdr : length hdr = 29%nat)
    (Hvalid : validateHeader (string_of_bytes hdr) = None)
    (Hrest : x1a ∉ rest) :
  Decode (hdr ++ rest)
  = (mkFile (string_of_bytes hdr) (string_of_runes rest) [], Some io_EOF, []).
Proof.
  unfold Decode.
  rewrite Read_full;
    [|by rewrite length_make|apply app_ne_nil_len; left; lia].
  cbn [File_Header zeroFile Comment Tracks]. rewrite Hvalid.
  unfold readStringASCIIEOF.
  by rewrite readStringASCIIEOF_loop_eof by (first [done | lia]).
Qed.

(** X15.  When [validateHeader] rejects the 29 bytes of the header,
    [Decode] returns its error and the file with that header, an empty
    comment and no tracks, and has read nothing after the header. *)
Theorem Decode_invalid_header (hdr rest : list byte) (e : error)
    (Hhdr : length hdr = 29%nat)
    (Hinvalid : validateHeader (string_of_bytes hdr) = Some e) :
  Decode (hdr ++ rest) = (mkFile (string_of_bytes hdr) "" [], Some e, rest).
Proof.
  unfold Decode.
  rewrite Read_full;
    [|by rewrite length_make|apply app_ne_nil_len; left; lia].
  cbn [File_Header zeroFile Comment Tracks]. by rewrite Hinvalid.
Qed.

(** *** [fill] and the comment reader *)

(** X16.  [fill] sets every byte of the slice to the value and keeps its
    length. *)
Theorem fill_replicate (dst : list byte) (v : byte) :
  fill dst v = replicate (length dst) v.
Proof. unfold fill. rewrite fill_loop_spec by lia. by rewrite take_0. Qed.

Lemma string_of_rune_length b :
  String.length (string_of_rune b)
  = if 128 <=? Byte.to_N b then 2%nat else 1%nat.
Proof.
  unfold string_of_rune.
  destruct (N.ltb_spec (Byte.to_N b) 128), (N.leb_spec 128 (Byte.to_N b));
    first [reflexivity | lia].
Qed.

Lemma string_of_runes_length T :
  String.length (string_of_runes T) = (length T + count_non_ascii T)%nat.
Proof.
  unfold count_non_ascii. induction T as [|b T IH]; [done|].
  cbn [string_of_runes List.filter length].
  rewrite string_length_app, string_of_rune_length, IH.
  destruct (128 <=? Byte.to_N b); cbn [length]; lia.
Qed.

(** X17.  The comment reader stops at the first sentinel, whatever the
    bytes before it and after it.  Each byte below 0x80 gives one
    character of the text and each byte from 0x80 on gives two, the
    UTF-8 encoding of its code point: the text has as many characters as
    there are bytes before the sentinel and bytes from 0x80 on among
    them. *)
Theorem readStringASCIIEOF_first_sentinel (T rest : list byte)
    (Hsentinel : x1a ∉ T) :
  readStringASCIIEOF (T ++ x1a :: rest) = (string_of_runes T, None, rest)
  /\ String.length (string_of_runes T) = (length T + count_non_ascii T)%nat.
Proof.
  split; [by apply readStringASCIIEOF_sentinel|apply string_of_runes_length].
Qed.

(** *** The properties at sample images *)

Ltac notin_tac := apply (bool_decide_unpack _); vm_compute; exact I.

Lemma Decode_error_no_tracks_witness :
  (Decode (hdr_1 ++ comment_1)).1.2 = Some io_EOF
  /\ Tracks (Decode (hdr_1 ++ comment_1)).1.1 = [].
Proof.
  assert (H : (Decode (hdr_1 ++ comment_1)).1.2 = Some io_EOF)
    by (vm_compute; reflexivity).
  split; [exact H|].
  exact (Decode_error_no_tracks (hdr_1 ++ comment_1) io_EOF H).
Defined.

Lemma Decode_success_header_witness :
  (Decode stream_1).1.2 = None
  /\ String.length (File_Header (Decode stream_1).1.1) = 29%nat
  /\ validateHeader (File_Header (Decode stream_1).1.1) = None
  /\ (exists v, Header_Version (File_Header (Decode stream_1).1.1) = Some v
        /\ String.length v = 4%nat)
  /\ (exists t, Header_Time (File_Header (Decode stream_1).1.1) = Some (t, None)).
Proof.
  assert (H : (Decode stream_1).1.2 = None) by (vm_compute; reflexivity).
  split; [exact H|].
  exact (Decode_success_header stream_1 H).
Defined.


Lemma Decode_header_comment_witness :
  length hdr_1 = 29%nat
  /\ validateHeader (string_of_bytes hdr_1) = None
  /\ (x1a ∉ comment_1)
  /\ File_Header (Decode (hdr_1 ++ comment_1 ++ x1a :: [x05])).1.1
     = string_of_bytes hdr_1
  /\ Comment (Decode (hdr_1 ++ comment_1 ++ x1a :: [x05])).1.1
     = string_of_runes comment_1.
Proof.
  assert (H1 : length hdr_1 = 29%nat) by reflexivity.
  assert (H2 : validateHeader (string_of_bytes hdr_1) = None)
    by (vm_compute; reflexivity).
  assert (H3 : x1a ∉ comment_1) by notin_tac.
  split; [exact H1|]. split; [exact H2|]. split; [exact H3|].
  exact (Decode_header_comment hdr_1 comment_1 [x05] H1 H2 H3).
Defined.

Lemma Decode_track_fields_witness :
  image_shape hdr_1 comment_1 xc0 x03 [x01; x02; x03] [x00; x00; x00]
    [x01; x01; x01]
  /\ track_1 ∈ Tracks (Decode stream_1).1.1
  /\ ModeValue track_1 = x05 /\ Cylinder track_1 = x00 /\ Head track_1 = xc0
  /\ NumberOfSectors track_1 = x03 /\ SectorSize track_1 = x04
  /\ SectorNumberingMap track_1 = Some [x01; x02; x03]
  /\ SectorCylinderMap track_1
     = (if N.testbit (Byte.to_N xc0) 6 then Some [x00; x00; x00] else None)
  /\ SectorHeadMap track_1
     = (if N.testbit (Byte.to_N xc0) 7 then Some [x01; x01; x01] else None).
Proof.
  assert (H1 : image_shape hdr_1 comment_1 xc0 x03 [x01; x02; x03]
                 [x00; x00; x00] [x01; x01; x01]) by shape_tac.
  assert (H3 : track_1 ∈ Tracks (Decode stream_1).1.1) by track_tac.
  split; [exact H1|]. split; [exact H3|].
  refine (Decode_track_fields hdr_1 comment_1 x05 x00 xc0 x03 x04
            [x01; x02; x03] [x00; x00; x00] [x01; x01; x01]
            ([x01; xaa; xbb; xcc; xdd] ++ [x00] ++ [x02; xee] ++ [xff])
            track_1 H1 _ H3).
  discriminate.
Defined.

Lemma Decode_verbatim_sector_witness :
  image_shape hdr_1 comment_1 xc0 x03 [x01; x02; x03] [x00; x00; x00]
    [x01; x01; x01]
  /\ slot_starts_at x04 x03 0 []
       (x01 :: [xaa; xbb; xcc; xdd] ++ [x00; x02; xee; xff])
  /\ is_verbatim x01 = true
  /\ length [xaa; xbb; xcc; xdd] = byte_len x04
  /\ track_1 ∈ Tracks (Decode stream_1).1.1
  /\ SectorDataRecords track_1 !! 0%nat = Some (Some [xaa; xbb; xcc; xdd]).
Proof.
  assert (H1 : image_shape hdr_1 comment_1 xc0 x03 [x01; x02; x03]
                 [x00; x00; x00] [x01; x01; x01]) by shape_tac.
  assert (H2 : slot_starts_at x04 x03 0 []
                 (x01 :: [xaa; xbb; xcc; xdd] ++ [x00; x02; xee; xff]))
    by slot_tac.
  assert (H3 : track_1 ∈ Tracks (Decode stream_1).1.1) by track_tac.
  split; [exact H1|]. split; [exact H2|]. split; [reflexivity|].
  split; [reflexivity|]. split; [exact H3|].
  refine (Decode_verbatim_sector hdr_1 comment_1 x05 x00 xc0 x03 x04
            [x01; x02; x03] [x00; x00; x00] [x01; x01; x01]
            [] [xaa; xbb; xcc; xdd] [x00; x02; xee; xff] 0 x01 track_1
            H1 H2 eq_refl eq_refl _ H3).
  discriminate.
Defined.

Lemma Decode_unavailable_sector_witness :
  image_shape hdr_1 comment_1 xc0 x03 [x01; x02; x03] [x00; x00; x00]
    [x01; x01; x01]
  /\ slot_starts_at x04 x03 1 [x01; xaa; xbb; xcc; xdd] [x00; x02; xee; xff]
  /\ (forall t, t ∈ Tracks (Decode stream_1).1.1 ->
        SectorDataRecords t !! 1%nat = Some None)
  /\ ((2 < byte_len x03)%nat -> [x02; xee; xff] <> [] ->
      slot_starts_at x04 x03 2 ([x01; xaa; xbb; xcc; xdd] ++ [x00])
        [x02; xee; xff]).
Proof.
  assert (H1 : image_shape hdr_1 comment_1 xc0 x03 [x01; x02; x03]
                 [x00; x00; x00] [x01; x01; x01]) by shape_tac.
  assert (H2 : slot_starts_at x04 x03 1 [x01; xaa; xbb; xcc; xdd]
                 [x00; x02; xee; xff]) by slot_tac.
  split; [exact H1|]. split; [exact H2|].
  exact (Decode_unavailable_sector hdr_1 comment_1 x05 x00 xc0 x03 x04
           [x01; x02; x03] [x00; x00; x00] [x01; x01; x01]
           [x01; xaa; xbb; xcc; xdd] [x02; xee; xff] 1 H1 H2).
Defined.

Lemma Decode_first_track_witness :
  image_shape hdr_1 comment_1 xc0 x03 [x01; x02; x03] [x00; x00; x00]
    [x01; x01; x01]
  /\ validateHeader (string_of_bytes hdr_1) = None
  /\ records_end_at x04 x03 [x01; xaa; xbb; xcc; xdd; x00; x02; xee] [xff]
       (SectorDataRecords track_1)
  /\ track_bytes_b <> []
  /\ Decode (image hdr_1 comment_1 x05 x00 xc0 x03 x04
               [x01; x02; x03] [x00; x00; x00] [x01; x01; x01]
               ([x01; xaa; xbb; xcc; xdd; x00; x02; xee] ++ track_bytes_b))
     = (mkFile (string_of_bytes hdr_1) (string_of_runes comment_1) [track_1],
        None, track_bytes_b).
Proof.
  assert (H1 : image_shape hdr_1 comment_1 xc0 x03 [x01; x02; x03]
                 [x00; x00; x00] [x01; x01; x01]) by shape_tac.
  assert (H2 : validateHeader (string_of_bytes hdr_1) = None)
    by (vm_compute; reflexivity).
  assert (H3 : records_end_at x04 x03 [x01; xaa; xbb; xcc; xdd; x00; x02; xee]
                 [xff] (SectorDataRecords track_1))
    by (split; [discriminate | vm_compute; reflexivity]).
  assert (H4 : track_bytes_b <> []) by discriminate.
  split; [exact H1|]. split; [exact H2|]. split; [exact H3|].
  split; [exact H4|].
  exact (Decode_first_track hdr_1 comment_1 x05 x00 xc0 x03 x04
           [x01; x02; x03] [x00; x00; x00] [x01; x01; x01]
           [x01; xaa; xbb; xcc; xdd; x00; x02; xee] [xff] track_bytes_b
           (SectorDataRecords track_1) H1 H2 H3 H4).
Defined.

Lemma Decode_truncated_sectors_witness :
  image_shape hdr_1 comment_1 xc0 x03 [x01; x02; x03] [x00; x00; x00]
    [x01; x01; x01]
  /\ validateHeader (string_of_bytes hdr_1) = None
  /\ (2 < byte_len x03)%nat
  /\ sectorLoop 2 0 x04 [x01; xaa; xbb; xcc; xdd; x00] x00
       (replicate (byte_len x03) None)
     = ([Some [xaa; xbb; xcc; xdd]; None; None], None, [])
  /\ Decode (image hdr_1 comment_1 x05 x00 xc0 x03 x04
               [x01; x02; x03] [x00; x00; x00] [x01; x01; x01]
               [x01; xaa; xbb; xcc; xdd; x00])
     = (mkFile (string_of_bytes hdr_1) (string_of_runes comment_1) [],
        Some io_EOF, []).
Proof.
  assert (H1 : image_shape hdr_1 comment_1 xc0 x03 [x01; x02; x03]
                 [x00; x00; x00] [x01; x01; x01]) by shape_tac.
  assert (H2 : validateHeader (string_of_bytes hdr_1) = None)
    by (vm_compute; reflexivity).
  assert (H3 : (2 < byte_len x03)%nat) by (vm_compute; lia).
  assert (H4 : sectorLoop 2 0 x04 [x01; xaa; xbb; xcc; xdd; x00] x00
                 (replicate (byte_len x03) None)
               = ([Some [xaa; xbb; xcc; xdd]; None; None], None, []))
    by (vm_compute; reflexivity).
  split; [exact H1|]. split; [exact H2|]. split; [exact H3|].
  split; [exact H4|].
  exact (Decode_truncated_sectors hdr_1 comment_1 x05 x00 xc0 x03 x04
           [x01; x02; x03] [x00; x00; x00] [x01; x01; x01]
           [x01; xaa; xbb; xcc; xdd; x00] 2
           [Some [xaa; xbb; xcc; xdd]; None; None] H1 H2 H3 H4).
Defined.

Lemma Decode_truncated_track_header_witness :
  length hdr_1 = 29%nat
  /\ validateHeader (string_of_bytes hdr_1) = None
  /\ (x1a ∉ comment_1)
  /\ (1 <= length [x05; x00] <= 4)%nat
  /\ Decode (hdr_1 ++ comment_1 ++ x1a :: [x05; x00])
     = (mkFile (string_of_bytes hdr_1) (string_of_runes comment_1) [],
        Some io_EOF, []).
Proof.
  assert (H1 : length hdr_1 = 29%nat) by reflexivity.
  assert (H2 : validateHeader (string_of_bytes hdr_1) = None)
    by (vm_compute; reflexivity).
  assert (H3 : x1a ∉ comment_1) by notin_tac.
  assert (H4 : (1 <= length [x05; x00] <= 4)%nat) by (cbn; lia).
  split; [exact H1|]. split; [exact H2|]. split; [exact H3|].
  split; [exact H4|].
  exact (Decode_truncated_track_header hdr_1 comment_1 [x05; x00] H1 H2 H3 H4).
Defined.

Lemma Decode_partial_payload_witness :
  image_shape hdr_1 comment_1 x00 x01 [x01] [] []
  /\ validateHeader (string_of_bytes hdr_1) = None
  /\ slot_starts_at x04 x01 0 [] [x01; xaa; xbb]
  /\ byte_len x01 = 1%nat
  /\ is_verbatim x01 = true
  /\ (length [xaa; xbb] < byte_len x04)%nat
  /\ exists t,
       Decode stream_short_payload
       = (mkFile (string_of_bytes hdr_1) (string_of_runes comment_1) [t],
          None, [])
       /\ SectorDataRecords t !! 0%nat
          = Some (Some ([xaa; xbb]
                          ++ replicate (byte_len x04 - length [xaa; xbb]) x00)).
Proof.
  assert (H1 : image_shape hdr_1 comment_1 x00 x01 [x01] [] []) by shape_tac.
  assert (H2 : validateHeader (string_of_bytes hdr_1) = None)
    by (vm_compute; reflexivity).
  assert (H3 : slot_starts_at x04 x01 0 [] [x01; xaa; xbb]) by slot_tac.
  assert (H4 : (length [xaa; xbb] < byte_len x04)%nat) by (vm_compute; lia).
  split; [exact H1|]. split; [exact H2|]. split; [exact H3|].
  split; [reflexivity|]. split; [reflexivity|]. split; [exact H4|].
  refine (Decode_partial_payload hdr_1 comment_1 x05 x00 x00 x01 x04
            [x01] [] [] [] [xaa; xbb] 0 x01 H1 H2 H3 eq_refl eq_refl _ H4).
  discriminate.
Defined.

Lemma Decode_comment_unterminated_witness :
  length hdr_1 = 29%nat
  /\ validateHeader (string_of_bytes hdr_1) = None
  /\ (x1a ∉ comment_1)
  /\ Decode (hdr_1 ++ comment_1)
     = (mkFile (string_of_bytes hdr_1) (string_of_runes comment_1) [],
        Some io_EOF, []).
Proof.
  assert (H1 : length hdr_1 = 29%nat) by reflexivity.
  assert (H2 : validateHeader (string_of_bytes hdr_1) = None)
    by (vm_compute; reflexivity).
  assert (H3 : x1a ∉ comment_1) by notin_tac.
  split; [exact H1|]. split; [exact H2|]. split; [exact H3|].
  exact (Decode_comment_unterminated hdr_1 comment_1 H1 H2 H3).
Defined.

Lemma Decode_invalid_header_witness :
  length (bytes "IMX 1.18: 15/03/2021 10:30:00") = 29%nat
  /\ validateHeader (string_of_bytes (bytes "IMX 1.18: 15/03/2021 10:30:00"))
     = Some (errors_New "does not start with 'IMD '")
  /\ Decode (bytes "IMX 1.18: 15/03/2021 10:30:00" ++ [x1a; x05])
     = (mkFile (string_of_bytes (bytes "IMX 1.18: 15/03/2021 10:30:00")) "" [],
        Some (errors_New "does not start with 'IMD '"), [x1a; x05]).
Proof.
  assert (H1 : length (bytes "IMX 1.18: 15/03/2021 10:30:00") = 29%nat)
    by reflexivity.
  assert (H2 : validateHeader
                 (string_of_bytes (bytes "IMX 1.18: 15/03/2021 10:30:00"))
               = Some (errors_New "does not start with 'IMD '"))
    by (vm_compute; reflexivity).
  split; [exact H1|]. split; [exact H2|].
  exact (Decode_invalid_header (bytes "IMX 1.18: 15/03/2021 10:30:00")
           [x1a; x05] _ H1 H2).
Defined.

Lemma readStringASCIIEOF_first_sentinel_witness :
  (x1a ∉ [x68; xe9])
  /\ readStringASCIIEOF ([x68; xe9] ++ x1a :: [x1a; x05])
     = (string_of_runes [x68; xe9], None, [x1a; x05])
  /\ String.length (string_of_runes [x68; xe9])
     = (length [x68; xe9] + count_non_ascii [x68; xe9])%nat.
Proof.
  assert (H : x1a ∉ [x68; xe9]) by notin_tac.
  split; [exact H|].
  exact (readStringASCIIEOF_first_sentinel [x68; xe9] [x1a; x05] H).
Defined.

Lemma Decode_clean_eof_witness :
  length hdr_1 = 29%nat
  /\ validateHeader (string_of_bytes hdr_1) = None
  /\ (x1a ∉ comment_1)
  /\ Decode (hdr_1 ++ comment_1 ++ [x1a])
     = (mkFile (string_of_bytes hdr_1) (string_of_runes comment_1) [], None, []).
Proof.
  assert (H1 : length hdr_1 = 29%nat) by reflexivity.
  assert (H2 : validateHeader (string_of_bytes hdr_1) = None)
    by (vm_compute; reflexivity).
  assert (H3 : x1a ∉ comment_1) by notin_tac.
  split; [exact H1|]. split; [exact H2|]. split; [exact H3|].
  exact (Decode_clean_eof hdr_1 comment_1 H1 H2 H3).
Defined.
